(** * Chat-Assistant: the conversational-session policy of [app.py]

    A shallow embedding of the event handlers of [src/app.py]
    ([initialize_session_state], [create_conversation], [handle_user_input],
    [reset_conversation], [handle_model_change], [main]) together with the
    statements of the specification that concern them.

    - Python [str] values are sequences of Unicode code points ([list N]).
    - [st.session_state] is a record whose fields may be absent.
    - Handlers run in a state-and-exception monad over the application state
      (session state, rendered page, outbound network log): a Python
      exception keeps every mutation made before it was raised.
    - The third-party collaborators (the window memory, the chat client, the
      conversation chain, the remote completion API, the credential) are not
      part of the repository; what the handlers rely on is isolated in
      [Module Langchain] and in the class [Externals]. *)

From Stdlib Require Import String Ascii List ZArith NArith Bool Lia.
Import ListNotations.

Set Implicit Arguments.

(* ================================================================= *)
(** ** Python strings *)

Module PyStr.

(** A Python [str]: a sequence of code points. *)
Definition str := list N.

(** Embedding of an ASCII literal. *)
Fixpoint py (s : string) : str :=
  match s with
  | EmptyString => []
  | String c r => N_of_ascii c :: py r
  end.

Definition eqb (a b : str) : bool :=
  if list_eq_dec N.eq_dec a b then true else false.

(** [str.isspace] on one code point: the code points Python treats as
    whitespace. *)
Definition isspace (c : N) : bool :=
  ((9 <=? c) && (c <=? 13) || (28 <=? c) && (c <=? 32)
   || (c =? 133) || (c =? 160) || (c =? 5760)
   || (8192 <=? c) && (c <=? 8202)
   || (c =? 8232) || (c =? 8233) || (c =? 8239) || (c =? 8287)
   || (c =? 12288))%N.

Fixpoint lstrip (s : str) : str :=
  match s with
  | [] => []
  | c :: r => if isspace c then lstrip r else s
  end.

Definition rstrip (s : str) : str := rev (lstrip (rev s)).

(** [s.strip()] with no argument. *)
Definition strip (s : str) : str := rstrip (lstrip s).

(** Truthiness of a string: [bool(s)]. *)
Definition truthy (s : str) : bool :=
  match s with [] => false | _ :: _ => true end.

End PyStr.
Import PyStr.

(* ================================================================= *)
(** ** Exceptions *)

Inductive exn_class :=
| AttributeError
| ValueError
| CredentialMissing
| ConfigurationError
| RemoteCallError.

(** An exception instance: its class and [str(e)].  Only instances of
    [Exception] are modelled (process signals such as [KeyboardInterrupt] are
    not behaviours of a handler). *)
Record exn := Exn { exn_kind : exn_class; exn_str : str }.

Inductive result (A : Type) :=
| Ok (a : A)
| Raise (e : exn).
Arguments Ok {A} a.
Arguments Raise {A} e.

(* ================================================================= *)
(** ** Data model *)

(** One element of [st.session_state.chat_history]: the dict
    [{'human': ..., 'AI': ...}] built at line 74. *)
Record Turn := { human : str; AI : str }.

Definition Transcript := list Turn.

(** The last [m] elements of a list, as the Python slice [l[-m:]] computes
    them for [m > 0]. *)
Definition slice_last {A} (m : Z) (l : list A) : list A :=
  skipn (Z.to_nat (Z.max 0 (Z.of_nat (length l) - m))) l.

(** The [n] most recent entries of a sequence. *)
Definition most_recent {A} (n : nat) (l : list A) : list A :=
  skipn (length l - n) l.

Module Langchain.

Inductive BaseMessage :=
| HumanMessage (content : str)
| AIMessage (content : str).

(** Modelled from the spec: the class [ConversationBufferWindowMemory] is
    imported from langchain and is not under src/.  It is the
    "bounded-window memory keeping at most [memory_window] most-recent
    Turns": every saved exchange is appended to [chat_memory], and the
    context handed to the model is the window of the last [k] exchanges
    (two messages each), empty when [k] is not positive. *)
Record ConversationBufferWindowMemory :=
  { k : Z; chat_memory : list BaseMessage }.

Definition new_memory (k : Z) : ConversationBufferWindowMemory :=
  {| k := k; chat_memory := [] |}.

Definition save_context (m : ConversationBufferWindowMemory)
           (input output : str) : ConversationBufferWindowMemory :=
  {| k := k m;
     chat_memory := chat_memory m ++ [HumanMessage input; AIMessage output] |}.

(** The context window: [chat_memory[-k * 2:] if k > 0 else []]. *)
Definition buffer (m : ConversationBufferWindowMemory) : list BaseMessage :=
  if (0 <? k m)%Z then slice_last (k m * 2) (chat_memory m) else [].

(** The chat client object: the credential and the model it is bound to. *)
Record ChatGroq := { groq_api_key_of : option str; model_name : str }.

Record ConversationChain :=
  { llm : ChatGroq; memory : ConversationBufferWindowMemory }.

(** What one outbound completion request carries. *)
Record request :=
  { req_model : str;
    req_history : list BaseMessage;
    req_input : str }.

(** The request a chain sends for an utterance: the model it is bound to,
    its context window and the utterance. *)
Definition request_of (c : ConversationChain) (q : str) : request :=
  {| req_model := model_name (llm c);
     req_history := buffer (memory c);
     req_input := q |}.

(** The two messages of one exchange. *)
Definition messages_of (t : Turn) : list BaseMessage :=
  [HumanMessage (human t); AIMessage (AI t)].

(** Reading a window back as exchanges: [None] when the messages are not
    an alternation human, AI, human, AI, ... *)
Fixpoint turns_of (l : list BaseMessage) : option (list Turn) :=
  match l with
  | [] => Some []
  | HumanMessage h :: AIMessage a :: r =>
      match turns_of r with
      | Some ts => Some ({| human := h; AI := a |} :: ts)
      | None => None
      end
  | _ => None
  end.

(** The context window of a chain, as exchanges. *)
Definition context_window (c : ConversationChain) : option (list Turn) :=
  turns_of (buffer (memory c)).

End Langchain.
Import Langchain.

(* ================================================================= *)
(** ** External collaborators *)

(** Everything the handlers receive from outside the repository.
    - [groq_api_key]: the module-level [os.getenv("GROQ_API_KEY")]
      (line 11), [None] when the variable is not set.
    - [ChatGroq_init key model]: the exception raised by the constructor
      [ChatGroq(groq_api_key=key, model_name=model)], if it raises.
    - [remote i req]: the outcome of the [i]-th outbound completion request
      of the run (a reply, or the exception the call raises). *)
Class Externals :=
  { groq_api_key : option str;
    ChatGroq_init : option str -> str -> option exn;
    remote : nat -> request -> exn + str }.

(** Truthiness of the credential: [bool(groq_api_key)]. *)
Definition credential_available (key : option str) : bool :=
  match key with
  | Some s => truthy s
  | None => false
  end.

(** Modelled from the spec: the constructor of the third-party class
    [ChatGroq] is not under src/.  Construction "fails with
    [CredentialMissing] if no credential is available"; the constructor
    receives only the credential and a model name, so nothing else can make
    it fail, and it makes "no network call at build time". *)
Definition ChatGroq_spec (key : option str) (model : str) : option exn :=
  if credential_available key then None
  else Some (Exn CredentialMissing (py "The api_key client option must be set")).

(** The collaborators as the specification describes them, for a given
    credential and remote behaviour. *)
Definition spec_externals (key : option str)
           (api : nat -> request -> exn + str) : Externals :=
  {| groq_api_key := key; ChatGroq_init := ChatGroq_spec; remote := api |}.

(* ================================================================= *)
(** ** Application state *)

(** [st.session_state]: each key is absent ([None]) or holds a value.  The
    key ['conversation'] holds [None] (unset) or a chain. *)
Record SessionState :=
  { chat_history : option Transcript;
    conversation : option (option ConversationChain);
    model : option str;
    memory_length : option Z }.

Definition empty_session : SessionState :=
  {| chat_history := None; conversation := None;
     model := None; memory_length := None |}.

Inductive role := user | assistant.

(** What the handlers put on the page. *)
Inductive ui_event :=
| PageConfig
| SidebarTitle
| Subheader (label : string)
| Selectbox (index : nat)
| Slider (value : Z)
| ResetButton
| Success (text : str)
| Error (text : str)
| MainTitle
| Markdown (text : str)
| ChatMessage (r : role) (text : str)
| ChatMessageOpen (r : role)
| PlaceholderText (text : str)
| PlaceholderEmpty
| WriteText (text : str)
| ChatInput
| Rerun.

Record App :=
  { session_state : SessionState;
    page : list ui_event;
    network : list (request * (exn + str)) }.

Definition with_session (f : SessionState -> SessionState) (a : App) : App :=
  {| session_state := f (session_state a);
     page := page a; network := network a |}.

(* ================================================================= *)
(** ** The state-and-exception monad of the handlers *)

Definition M (A : Type) : Type := App -> result A * App.

Definition ret {A} (x : A) : M A := fun a => (Ok x, a).

Definition raise {A} (e : exn) : M A := fun a => (Raise e, a).

Definition bind {A B} (c : M A) (f : A -> M B) : M B :=
  fun a =>
    match c a with
    | (Ok x, a') => f x a'
    | (Raise e, a') => (Raise e, a')
    end.

(** [try: body  except Exception as e: handler e]. *)
Definition try_except {A} (body : M A) (handler : exn -> M A) : M A :=
  fun a =>
    match body a with
    | (Ok x, a') => (Ok x, a')
    | (Raise e, a') => handler e a'
    end.

Declare Scope py_scope.
Delimit Scope py_scope with py.
Notation "x <- c ;; f" := (bind c (fun x => f))
  (at level 100, c at next level, right associativity) : py_scope.
Notation "c ;; f" := (bind c (fun _ => f))
  (at level 100, right associativity) : py_scope.
Open Scope py_scope.

(** [for x in l: body x]. *)
Fixpoint for_each {A} (l : list A) (body : A -> M unit) : M unit :=
  match l with
  | [] => ret tt
  | x :: r => body x ;; for_each r body
  end.

(** Reading [st.session_state.<name>]: [AttributeError] when the key is
    absent (its message is abbreviated to the name of the key). *)
Definition attr {A} (name : string) (field : SessionState -> option A) : M A :=
  fun a =>
    match field (session_state a) with
    | Some v => (Ok v, a)
    | None => (Raise (Exn AttributeError (py name)), a)
    end.

(** Membership test ['<name>' in st.session_state]. *)
Definition has {A} (field : SessionState -> option A) : M bool :=
  fun a =>
    (Ok (match field (session_state a) with Some _ => true | None => false end),
     a).

Definition set_chat_history (v : Transcript) : M unit :=
  fun a =>
    (Ok tt,
     with_session
       (fun s => {| chat_history := Some v; conversation := conversation s;
                    model := model s; memory_length := memory_length s |}) a).

Definition set_conversation (v : option ConversationChain) : M unit :=
  fun a =>
    (Ok tt,
     with_session
       (fun s => {| chat_history := chat_history s; conversation := Some v;
                    model := model s; memory_length := memory_length s |}) a).

Definition set_model (v : str) : M unit :=
  fun a =>
    (Ok tt,
     with_session
       (fun s => {| chat_history := chat_history s;
                    conversation := conversation s;
                    model := Some v; memory_length := memory_length s |}) a).

Definition set_memory_length (v : Z) : M unit :=
  fun a =>
    (Ok tt,
     with_session
       (fun s => {| chat_history := chat_history s;
                    conversation := conversation s;
                    model := model s; memory_length := Some v |}) a).

(** A call into the presentation layer. *)
Definition render (e : ui_event) : M unit :=
  fun a =>
    (Ok tt,
     {| session_state := session_state a;
        page := page a ++ [e]; network := network a |}).

(* ================================================================= *)
(** ** The handlers of [app.py] *)

Section Handlers.

Context {E : Externals}.

(** Lines 14-17. *)
Definition SUPPORTED_MODELS : list str :=
  [py "llama-3.1-8b-instant"; py "deepseek-r1-distill-qwen-32b"].

(** [SUPPORTED_MODELS[0]]. *)
Definition default_model : str := hd [] SUPPORTED_MODELS.

(** [l.index(x)]: [ValueError] when [x] is not in [l]. *)
Fixpoint index_from (i : nat) (x : str) (l : list str) : option nat :=
  match l with
  | [] => None
  | y :: r => if eqb x y then Some i else index_from (S i) x r
  end.

Definition index (l : list str) (x : str) : M nat :=
  match index_from 0 x l with
  | Some i => ret i
  | None => raise (Exn ValueError (x ++ py " is not in list"))
  end.

(** Lines 25-34. *)
Definition initialize_session_state : M unit :=
  b <- has chat_history ;;
  (if negb b then set_chat_history [] else ret tt) ;;
  b <- has conversation ;;
  (if negb b then set_conversation None else ret tt) ;;
  b <- has model ;;
  (if negb b then set_model default_model else ret tt) ;;
  b <- has memory_length ;;
  (if negb b then set_memory_length 5 else ret tt).

(** [ChatGroq(groq_api_key=key, model_name=model)]. *)
Definition ChatGroq_new (key : option str) (model : str) : M ChatGroq :=
  match ChatGroq_init key model with
  | Some e => raise e
  | None => ret {| groq_api_key_of := key; model_name := model |}
  end.

(** The loop of lines 41-42 over a transcript. *)
Definition preload (memory : ConversationBufferWindowMemory)
           (history : Transcript) : ConversationBufferWindowMemory :=
  fold_left (fun m message => save_context m (human message) (AI message))
            history memory.

(** Lines 36-53. *)
Definition create_conversation (model : str) (memory_length : Z)
  : M ConversationChain :=
  let memory := new_memory memory_length in
  history <- attr "chat_history" chat_history ;;
  let memory := preload memory history in
  groq_chat <- ChatGroq_new groq_api_key model ;;
  ret {| llm := groq_chat; memory := memory |}.

(** Modelled from the spec: [ConversationChain.invoke] is imported from
    langchain and is not under src/.  It stands for
    [chain.invoke({'input': input})['response']]: "synchronously submit
    [user_question] plus the bounded context held by the active
    Conversation Session to the remote completion API", one outbound
    request, no retry.  When the request raises, the exception propagates
    and the memory is left as it was; on a reply the exchange "becomes
    part of the Conversation Session's own bounded memory".  The second
    component is the chain object after the call. *)
Definition chain_invoke (c : ConversationChain) (input : str)
  : M (str * ConversationChain) :=
  fun a =>
    let req := request_of c input in
    let out := remote (length (network a)) req in
    let a' := {| session_state := session_state a; page := page a;
                 network := network a ++ [(req, out)] |} in
    match out with
    | inl e => (Raise e, a')
    | inr reply =>
        (Ok (reply,
             {| llm := llm c;
                memory := save_context (memory c) input reply |}), a')
    end.

(** Lines 70-71: [st.session_state.conversation.invoke(...)].  On an unset
    session the attribute lookup on [None] raises [AttributeError].  The
    chain is mutated in place, so the object held by the session state is
    the updated one. *)
Definition conversation_invoke (user_question : str) : M str :=
  c <- attr "conversation" conversation ;;
  match c with
  | None => raise (Exn AttributeError (py "invoke"))
  | Some chain =>
      r <- chain_invoke chain user_question ;;
      set_conversation (Some (snd r)) ;;
      ret (fst r)
  end.

(** Line 75: [st.session_state.chat_history.append(message)]. *)
Definition chat_history_append (message : Turn) : M unit :=
  h <- attr "chat_history" chat_history ;;
  set_chat_history (h ++ [message]).

(** The text of line 83. *)
Definition error_text (e : exn) : str :=
  [9888; 65039]%N ++ py " Error: " ++ exn_str e.

(** Lines 55-83. *)
Definition handle_user_input (user_question : str) : M unit :=
  if negb (truthy (strip user_question)) then ret tt
  else
    render (ChatMessage user user_question) ;;
    render (ChatMessageOpen assistant) ;;
    render (PlaceholderText (py "Thinking...")) ;;
    try_except
      (chatbot_reply <- conversation_invoke user_question ;;
       let message := {| human := user_question; AI := chatbot_reply |} in
       chat_history_append message ;;
       render PlaceholderEmpty ;;
       render (WriteText chatbot_reply))
      (fun e =>
         render PlaceholderEmpty ;;
         render (Error (error_text e))).

(** Lines 85-92.  [st.rerun()] only asks the presentation layer for a new
    run. *)
Definition reset_conversation : M unit :=
  set_chat_history [] ;;
  m <- attr "model" model ;;
  k <- attr "memory_length" memory_length ;;
  c <- create_conversation m k ;;
  set_conversation (Some c) ;;
  render Rerun.

(** Lines 94-99. *)
Definition handle_model_change : M unit :=
  m <- attr "model" model ;;
  k <- attr "memory_length" memory_length ;;
  c <- create_conversation m k ;;
  set_conversation (Some c).

(** The values the widgets return in one run of the script. *)
Record widgets :=
  { selected_model : str;
    slider_value : Z;
    submitted : option str }.

(** The text of lines 150 and 172. *)
Definition missing_key_text : str :=
  [10060]%N ++ py " Groq API key is missing. Please check your .env file.".

(** Lines 113-150: the sidebar. *)
Definition sidebar (w : widgets) : M unit :=
  render SidebarTitle ;;
  render (Subheader "Model Selection") ;;
  cur <- attr "model" model ;;
  i <- index SUPPORTED_MODELS cur ;;
  render (Selectbox i) ;;
  let model' := selected_model w in
  cur <- attr "model" model ;;
  (if negb (eqb model' cur)
   then set_model model' ;; handle_model_change
   else ret tt) ;;
  render (Subheader "Memory Settings") ;;
  cur_k <- attr "memory_length" memory_length ;;
  render (Slider cur_k) ;;
  let memory_length' := slider_value w in
  cur_k <- attr "memory_length" memory_length ;;
  (if negb (memory_length' =? cur_k)%Z
   then set_memory_length memory_length' ;; handle_model_change
   else ret tt) ;;
  render ResetButton ;;
  render (Subheader "API Status") ;;
  (if credential_available groq_api_key
   then render (Success (py "Groq API Key: Connected"))
   else render (Error missing_key_text)).

(** Lines 101-178. *)
Definition main (w : widgets) : M unit :=
  render PageConfig ;;
  initialize_session_state ;;
  sidebar w ;;
  render MainTitle ;;
  m <- attr "model" model ;;
  render (Markdown (py "**Current Model**: " ++ m)) ;;
  c <- attr "conversation" conversation ;;
  (match c with
   | None =>
       m <- attr "model" model ;;
       k <- attr "memory_length" memory_length ;;
       c <- create_conversation m k ;;
       set_conversation (Some c)
   | Some _ => ret tt
   end) ;;
  h <- attr "chat_history" chat_history ;;
  for_each h (fun message =>
                render (ChatMessage user (human message)) ;;
                render (ChatMessage assistant (AI message))) ;;
  if negb (credential_available groq_api_key)
  then render (Error missing_key_text)
  else
    render ChatInput ;;
    match submitted w with
    | Some user_question =>
        if truthy user_question then handle_user_input user_question
        else ret tt
    | None => ret tt
    end.

(** A sequence of Turn Executions, one per submitted text. *)
Fixpoint run_turns (questions : list str) : M unit :=
  match questions with
  | [] => ret tt
  | q :: r => handle_user_input q ;; run_turns r
  end.

End Handlers.

(* ================================================================= *)
(** ** Observations on the application state *)

(** A text is blank when every code point of it is whitespace. *)
Definition blank (s : str) : bool := forallb isspace s.

(** The outcome of one submission, in the words of the specification: empty
    (blank after trimming), failed, or successful with the reply of the
    remote API. *)
Inductive outcome :=
| Empty
| Failed
| Successful (reply : str).

(** The chain a session holds, when one is built. *)
Definition current_chain (s : SessionState) : option ConversationChain :=
  match conversation s with
  | Some (Some c) => Some c
  | _ => None
  end.

(** The outcomes of a sequence of submissions, read off the submitted texts
    and the remote API alone (not off the handlers): a blank text is an
    empty submission; without a chain a submission fails; with a chain [c]
    the submission is the [i]-th call of the remote API, for the request of
    [c], and is successful with its reply or failed when it raises; a
    successful submission becomes part of the memory of the chain. *)
Fixpoint spec_outcomes {E : Externals} (qs : list str)
         (c : option ConversationChain) (i : nat) : list (str * outcome) :=
  match qs with
  | [] => []
  | q :: r =>
      if blank q then (q, Empty) :: spec_outcomes r c i
      else
        match c with
        | None => (q, Failed) :: spec_outcomes r c i
        | Some chain =>
            match remote i (request_of chain q) with
            | inl _ => (q, Failed) :: spec_outcomes r c (S i)
            | inr reply =>
                (q, Successful reply)
                  :: spec_outcomes r
                       (Some {| llm := llm chain;
                                memory :=
                                  save_context (memory chain) q reply |})
                       (S i)
            end
        end
  end.

Definition is_successful (o : str * outcome) : bool :=
  match snd o with
  | Successful _ => true
  | _ => false
  end.

(** The exchanges {human, AI} of the successful submissions, in order. *)
Fixpoint exchanges (l : list (str * outcome)) : list Turn :=
  match l with
  | [] => []
  | (q, Successful reply) :: r => {| human := q; AI := reply |} :: exchanges r
  | _ :: r => exchanges r
  end.

(** Default-fill of one session key: an existing value stays, an absent
    key receives the default. *)
Definition default_fill {A} (d : A) (o : option A) : option A :=
  match o with
  | Some v => Some v
  | None => Some d
  end.

(** A computation never assigns [st.session_state.chat_history]. *)
Definition keeps_transcript {A} (c : M A) : Prop :=
  forall a, chat_history (session_state (snd (c a)))
            = chat_history (session_state a).

(** The Conversation Session a rebuild produces from a transcript under a
    configuration. *)
Definition rebuilt {E : Externals} (m : str) (w : Z) (h : Transcript)
  : ConversationChain :=
  {| llm := {| groq_api_key_of := groq_api_key; model_name := m |};
     memory := preload (new_memory w) h |}.

(** What the sidebar puts on the page (lines 114-150). *)
Definition sidebar_page {E : Externals} (i : nat) (w : Z) : list ui_event :=
  [SidebarTitle; Subheader "Model Selection"; Selectbox i;
   Subheader "Memory Settings"; Slider w; ResetButton;
   Subheader "API Status";
   if credential_available groq_api_key
   then Success (py "Groq API Key: Connected")
   else Error missing_key_text].

(** The Conversation Session holds exactly the exchanges of the transcript:
    its memory was fed every turn of the transcript, in order, and nothing
    else. *)
Definition in_sync (s : SessionState) : Prop :=
  exists c h,
    conversation s = Some (Some c)
    /\ chat_history s = Some h
    /\ chat_memory (memory c) = flat_map messages_of h.

(** The Conversation Session, when there is one, is the session a rebuild
    would produce from the stored configuration and transcript: it holds no
    state of its own. *)
Definition derived {E : Externals} (s : SessionState) : Prop :=
  forall c,
    conversation s = Some (Some c) ->
    exists h m w,
      chat_history s = Some h
      /\ model s = Some m
      /\ memory_length s = Some w
      /\ c = rebuilt m w h.

(** Partial correctness of a computation: from a state satisfying [P], a
    normal return with value [x] ends in a state satisfying [Q x]. *)
Definition hoare {A} (P : App -> Prop) (c : M A) (Q : A -> App -> Prop)
  : Prop :=
  forall a x a', P a -> c a = (Ok x, a') -> Q x a'.

(** A property of the session state that a computation keeps whenever it
    returns normally. *)
Definition invariant {A} (I : SessionState -> Prop) (c : M A) : Prop :=
  hoare (fun a => I (session_state a)) c (fun _ a => I (session_state a)).

(** A property of the session state that holds whenever a computation
    returns normally, whatever the state it started from. *)
Definition establishes {A} (I : SessionState -> Prop) (c : M A) : Prop :=
  hoare (fun _ => True) c (fun _ a => I (session_state a)).

(** Every session key exists. *)
Definition present (s : SessionState) : Prop :=
  chat_history s <> None /\ conversation s <> None
  /\ model s <> None /\ memory_length s <> None.

(** A Conversation Session is built. *)
Definition built (s : SessionState) : Prop :=
  exists c, conversation s = Some (Some c).

(** A computation relates every start state to its end state by [R],
    whether it returns or raises. *)
Definition steps {A} (R : App -> App -> Prop) (c : M A) : Prop :=
  forall a, R a (snd (c a)).

(** At most [n] entries were added to the network log, and none removed;
    the log gains one entry for each call of [conversation.invoke]. *)
Definition invocations_at_most (n : nat) (a a' : App) : Prop :=
  exists calls, network a' = network a ++ calls /\ length calls <= n.

(** The page only gained events, all of them satisfying [P]. *)
Definition page_adds (P : ui_event -> Prop) (a a' : App) : Prop :=
  exists events, page a' = page a ++ events /\ Forall P events.

(** What the transcript loop of lines 166-168 puts on the page. *)
Definition history_page (h : Transcript) : list ui_event :=
  flat_map (fun message =>
              [ChatMessage user (human message);
               ChatMessage assistant (AI message)]) h.

(** What a run of the script shows before it reaches the lazy construction
    of lines 159-163. *)
Definition page_before_build {E : Externals} (i : nat) (m : str) (w : Z)
  : list ui_event :=
  [PageConfig] ++ sidebar_page i w
               ++ [MainTitle; Markdown (py "**Current Model**: " ++ m)].

(** What the page shows of a turn before its outcome is known
    (lines 61-66). *)
Definition turn_prefix (q : str) : list ui_event :=
  [ChatMessage user q; ChatMessageOpen assistant;
   PlaceholderText (py "Thinking...")].

(** The five ways a Turn Execution can go, with the state each leaves:
    blank input; no chain to call; the request raises; the request replies
    and the exchange is recorded; the request replies but the transcript
    key is absent. *)
Inductive turn_step {E : Externals} (q : str) (a : App) : App -> Prop :=
| step_blank :
    blank q = true ->
    turn_step q a a
| step_unset (e : exn) :
    blank q = false ->
    (forall c, conversation (session_state a) <> Some (Some c)) ->
    exn_kind e = AttributeError ->
    turn_step q a
      {| session_state := session_state a;
         page := page a ++ turn_prefix q
                        ++ [PlaceholderEmpty; Error (error_text e)];
         network := network a |}
| step_failed (c : ConversationChain) (e : exn) :
    blank q = false ->
    conversation (session_state a) = Some (Some c) ->
    remote (length (network a)) (request_of c q) = inl e ->
    turn_step q a
      {| session_state := session_state a;
         page := page a ++ turn_prefix q
                        ++ [PlaceholderEmpty; Error (error_text e)];
         network := network a ++ [(request_of c q, inl e)] |}
| step_recorded (c : ConversationChain) (h : Transcript) (reply : str) :
    blank q = false ->
    conversation (session_state a) = Some (Some c) ->
    chat_history (session_state a) = Some h ->
    remote (length (network a)) (request_of c q) = inr reply ->
    turn_step q a
      {| session_state :=
           {| chat_history := Some (h ++ [{| human := q; AI := reply |}]);
              conversation :=
                Some (Some {| llm := llm c;
                              memory := save_context (memory c) q reply |});
              model := model (session_state a);
              memory_length := memory_length (session_state a) |};
         page := page a ++ turn_prefix q
                        ++ [PlaceholderEmpty; WriteText reply];
         network := network a ++ [(request_of c q, inr reply)] |}
| step_unrecorded (c : ConversationChain) (reply : str) :
    blank q = false ->
    conversation (session_state a) = Some (Some c) ->
    chat_history (session_state a) = None ->
    remote (length (network a)) (request_of c q) = inr reply ->
    turn_step q a
      {| session_state :=
           {| chat_history := None;
              conversation :=
                Some (Some {| llm := llm c;
                              memory := save_context (memory c) q reply |});
              model := model (session_state a);
              memory_length := memory_length (session_state a) |};
         page := page a ++ turn_prefix q
                        ++ [PlaceholderEmpty;
                            Error (error_text
                                     (Exn AttributeError (py "chat_history")))];
         network := network a ++ [(request_of c q, inr reply)] |}.

(* ================================================================= *)
(** ** Sample data *)

Module Sample.

Definition key : option str := Some (py "gsk-sample").

(** A remote API that always replies. *)
Definition echo_api : nat -> request -> exn + str :=
  fun _ req => inr (py "re: " ++ req_input req).

(** A remote API whose every call raises. *)
Definition timeout_error : exn := Exn RemoteCallError (py "timed out").


(** A remote API that answers the first three requests with fixed texts. *)
Definition scripted_api : nat -> request -> exn + str :=
  fun i _ =>
    match i with
    | 0 => inr (py "hi there")
    | 1 => inr (py "fine, thanks")
    | _ => inr (py "sure")
    end.

(** A remote API whose second call raises. *)
Definition flaky_api : nat -> request -> exn + str :=
  fun i req => if Nat.eqb i 1 then inl timeout_error else echo_api i req.

Definition online : Externals := spec_externals key echo_api.
Definition flaky : Externals := spec_externals key flaky_api.
Definition no_credential : Externals := spec_externals None echo_api.

(** Collaborators whose client constructor rejects the second model. *)
Definition rejected : exn := Exn ConfigurationError (py "model not available").

Definition picky : Externals :=
  {| groq_api_key := key;
     ChatGroq_init :=
       fun _ m => if eqb m (py "deepseek-r1-distill-qwen-32b")
                  then Some rejected else None;
     remote := echo_api |}.
Definition scripted : Externals := spec_externals key scripted_api.

Definition turn (i : N) : Turn :=
  {| human := py "q" ++ [48 + i]%N; AI := py "a" ++ [48 + i]%N |}.

Definition ten_turns : Transcript :=
  map turn [0; 1; 2; 3; 4; 5; 6; 7; 8; 9]%N.

Definition llama : str := py "llama-3.1-8b-instant".
Definition deepseek : str := py "deepseek-r1-distill-qwen-32b".

Definition session (h : Transcript) (c : option ConversationChain)
           (w : Z) : SessionState :=
  {| chat_history := Some h; conversation := Some c;
     model := Some llama; memory_length := Some w |}.

Definition app (s : SessionState) : App :=
  {| session_state := s; page := []; network := [] |}.

(** The widgets of a run in which the user touches nothing. *)
Definition idle : widgets :=
  {| selected_model := llama; slider_value := 5; submitted := None |}.

(** The session state after [initialize_session_state] on a new session. *)
Definition defaults : SessionState :=
  {| chat_history := Some []; conversation := Some None;
     model := Some llama; memory_length := Some 5%Z |}.

(** A chain over [h] bound to [llama] with window [w]. *)
Definition chain (h : Transcript) (w : Z) : ConversationChain :=
  {| llm := {| groq_api_key_of := key; model_name := llama |};
     memory := {| k := w; chat_memory := flat_map messages_of h |} |}.

End Sample.

(* ================================================================= *)
(** ** Lists, windows and strings *)

Section ListFacts.

Variable A : Type.

Lemma most_recent_length (n : nat) (l : list A) :
  length (most_recent n l) = Nat.min (length l) n.
Proof.
  unfold most_recent. rewrite length_skipn. lia.
Qed.

Lemma most_recent_suffix (n : nat) (l : list A) :
  firstn (length l - n) l ++ most_recent n l = l.
Proof.
  unfold most_recent. apply firstn_skipn.
Qed.

(** Keeping a window of [n] and evicting the oldest entry on overflow gives
    the same window as reading the [n] most recent entries of everything
    that was inserted. *)
Lemma most_recent_evict (n : nat) (l : list A) (x : A) :
  1 <= n ->
  most_recent n (most_recent n l ++ [x]) = most_recent n (l ++ [x]).
Proof.
  intros Hn. unfold most_recent.
  rewrite !length_app, length_skipn. simpl.
  destruct (Nat.le_gt_cases (length l) n) as [Hle|Hgt].
  - replace (length l - n) with 0 by lia. simpl.
    rewrite Nat.sub_0_r. reflexivity.
  - replace (length l - (length l - n) + 1 - n) with 1 by lia.
    replace (length l + 1 - n) with (S (length l - n)) by lia.
    rewrite !skipn_app, length_skipn.
    replace (1 - (length l - (length l - n))) with 0 by lia.
    replace (S (length l - n) - length l) with 0 by lia.
    rewrite skipn_skipn. simpl. reflexivity.
Qed.

End ListFacts.

Lemma flat_map_messages_length (h : Transcript) :
  length (flat_map messages_of h) = 2 * length h.
Proof.
  induction h as [|t h IH]; simpl; [reflexivity | rewrite IH; lia].
Qed.

Lemma skipn_messages (n : nat) (h : Transcript) :
  skipn (2 * n) (flat_map messages_of h) = flat_map messages_of (skipn n h).
Proof.
  revert h. induction n as [|n IH]; intros h.
  - reflexivity.
  - destruct h as [|t h].
    + reflexivity.
    + replace (2 * S n) with (S (S (2 * n))) by lia.
      simpl. apply IH.
Qed.

(** The window of the last [k] exchanges of a preloaded memory, message by
    message. *)
Lemma slice_last_messages (k : Z) (h : Transcript) :
  (0 < k)%Z ->
  slice_last (k * 2) (flat_map messages_of h)
  = flat_map messages_of (most_recent (Z.to_nat k) h).
Proof.
  intros Hk. unfold slice_last, most_recent.
  rewrite flat_map_messages_length.
  replace (Z.to_nat (Z.max 0 (Z.of_nat (2 * length h) - k * 2)))
    with (2 * (length h - Z.to_nat k)) by lia.
  apply skipn_messages.
Qed.

Lemma turns_of_messages (h : Transcript) :
  turns_of (flat_map messages_of h) = Some h.
Proof.
  induction h as [|[hu ai] h IH]; simpl.
  - reflexivity.
  - simpl in IH. rewrite IH. reflexivity.
Qed.

Lemma preload_spec (m : ConversationBufferWindowMemory) (h : Transcript) :
  preload m h
  = {| k := k m; chat_memory := chat_memory m ++ flat_map messages_of h |}.
Proof.
  unfold preload. revert m.
  induction h as [|t h IH]; intros m; simpl.
  - rewrite app_nil_r. destruct m; reflexivity.
  - rewrite IH. simpl. rewrite <- app_assoc. reflexivity.
Qed.

Lemma preload_new (w : Z) (h : Transcript) :
  preload (new_memory w) h
  = {| k := w; chat_memory := flat_map messages_of h |}.
Proof. rewrite preload_spec. reflexivity. Qed.

(** The context window of a memory preloaded with a transcript. *)
Lemma preload_window (w : Z) (h : Transcript) :
  (0 < w)%Z ->
  turns_of (buffer (preload (new_memory w) h))
  = Some (most_recent (Z.to_nat w) h).
Proof.
  intros Hw. rewrite preload_new. unfold buffer. simpl.
  destruct (Z.ltb_spec 0 w) as [_|]; [|lia].
  rewrite slice_last_messages by assumption.
  apply turns_of_messages.
Qed.

Lemma lstrip_blank (s : str) : blank s = true -> lstrip s = [].
Proof.
  induction s as [|c s IH]; simpl; [reflexivity|].
  intros H. apply andb_true_iff in H. destruct H as [Hc Hs].
  rewrite Hc. auto.
Qed.

Lemma lstrip_nil_blank (s : str) : lstrip s = [] -> blank s = true.
Proof.
  induction s as [|c s IH]; simpl; [reflexivity|].
  destruct (isspace c); [auto | discriminate].
Qed.

(** [s.strip()] is empty exactly when [s] is empty or whitespace-only. *)
Lemma strip_empty_iff (s : str) : strip s = [] <-> blank s = true.
Proof.
  unfold strip, rstrip. split.
  - intros H. apply lstrip_nil_blank.
    destruct (lstrip s) as [|c r] eqn:Hl; [reflexivity|].
    exfalso.
    assert (Hne : isspace c = false).
    { destruct s as [|c' s']; simpl in Hl; [discriminate|].
      clear H. revert c' Hl.
      induction s' as [|d s' IH]; intros c' Hl; simpl in Hl.
      - destruct (isspace c') eqn:Hc; [discriminate|].
        injection Hl as <- _. assumption.
      - destruct (isspace c') eqn:Hc.
        + apply (IH d). exact Hl.
        + injection Hl as <- _. assumption. }
    apply (f_equal (@rev N)) in H. rewrite rev_involutive in H. simpl in H.
    assert (Hb : blank (rev (c :: r)) = true)
      by (apply lstrip_nil_blank; exact H).
    unfold blank in Hb. rewrite forallb_forall in Hb.
    specialize (Hb c). rewrite <- in_rev in Hb.
    rewrite Hb in Hne; [discriminate | left; reflexivity].
  - intros H. rewrite (lstrip_blank _ H). reflexivity.
Qed.

(* ================================================================= *)
(** ** Running the monad *)

Lemma bind_ok {A B} (c : M A) (f : A -> M B) (a a' : App) (x : A) :
  c a = (Ok x, a') -> bind c f a = f x a'.
Proof. intros H. unfold bind. rewrite H. reflexivity. Qed.

Lemma attr_present {A} (name : string) (field : SessionState -> option A)
      (a : App) (v : A) :
  field (session_state a) = Some v -> attr name field a = (Ok v, a).
Proof. intros H. unfold attr. rewrite H. reflexivity. Qed.

Lemma app_eta (a : App) :
  {| session_state := session_state a; page := page a;
     network := network a |} = a.
Proof. destruct a; reflexivity. Qed.

(* ================================================================= *)
(** ** The Conversation Session builder *)

Section Builder.

Context {E : Externals}.

(** Whenever the transcript exists and the client can be constructed,
    [create_conversation] returns the chain made of that client and of the
    memory preloaded with the whole transcript, and changes nothing. *)
Lemma create_conversation_ok (a : App) (m : str) (w : Z) (h : Transcript) :
  chat_history (session_state a) = Some h ->
  ChatGroq_init groq_api_key m = None ->
  create_conversation m w a
  = (Ok {| llm := {| groq_api_key_of := groq_api_key; model_name := m |};
           memory := preload (new_memory w) h |}, a).
Proof.
  intros Hh Hc. unfold create_conversation.
  rewrite (bind_ok _ _ _ (attr_present _ _ _ Hh)).
  unfold ChatGroq_new. rewrite Hc. reflexivity.
Qed.

(** When the client constructor raises, so does [create_conversation],
    with the same exception and no change of state. *)
Lemma create_conversation_raise (a : App) (m : str) (w : Z)
      (h : Transcript) (e : exn) :
  chat_history (session_state a) = Some h ->
  ChatGroq_init groq_api_key m = Some e ->
  create_conversation m w a = (Raise e, a).
Proof.
  intros Hh Hc. unfold create_conversation.
  rewrite (bind_ok _ _ _ (attr_present _ _ _ Hh)).
  unfold ChatGroq_new. rewrite Hc. reflexivity.
Qed.

(** C1. Bounded window: for every memory window [w] in [1,15] and every
    transcript [h] of length [n], rebuilding the Conversation Session
    returns a chain whose context window holds exactly [min n w]
    exchanges, namely the [w] most recent ones of [h], which form the end
    of [h] in its original order; the memory was fed the whole transcript
    oldest first. *)
Theorem C1_bounded_window (a : App) (m : str) (w : Z) (h : Transcript) :
  (1 <= w <= 15)%Z ->
  chat_history (session_state a) = Some h ->
  ChatGroq_init groq_api_key m = None ->
  exists c : ConversationChain,
    create_conversation m w a = (Ok c, a)
    /\ chat_memory (memory c) = flat_map messages_of h
    /\ context_window c = Some (most_recent (Z.to_nat w) h)
    /\ length (most_recent (Z.to_nat w) h)
       = Nat.min (length h) (Z.to_nat w)
    /\ firstn (length h - Z.to_nat w) h ++ most_recent (Z.to_nat w) h = h.
Proof.
  intros Hw Hh Hc. eexists. split.
  - apply (create_conversation_ok a m w Hh Hc).
  - unfold context_window. simpl. repeat split.
    + rewrite preload_new. reflexivity.
    + apply preload_window. lia.
    + apply most_recent_length.
    + apply most_recent_suffix.
Qed.

End Builder.

(* ================================================================= *)
(** ** Turn Execution *)

Lemma blank_guard (q : str) : negb (truthy (strip q)) = blank q.
Proof.
  destruct (blank q) eqn:Hb.
  - apply strip_empty_iff in Hb. rewrite Hb. reflexivity.
  - destruct (strip q) as [|c r] eqn:Hs; [|reflexivity].
    apply strip_empty_iff in Hs. congruence.
Qed.

Section TurnExecution.

Context {E : Externals}.

Ltac run_handler :=
  unfold handle_user_input, conversation_invoke, chat_history_append,
    chain_invoke, try_except, bind, attr, render, ret, raise,
    set_conversation, set_chat_history, with_session; simpl.

Lemma turn_blank (q : str) (a : App) :
  blank q = true -> handle_user_input q a = (Ok tt, a).
Proof.
  intros Hb. unfold handle_user_input.
  rewrite blank_guard, Hb. reflexivity.
Qed.

(** No chain to call: the attribute error is caught and shown. *)
Lemma turn_unset (q : str) (a : App) :
  blank q = false ->
  (forall c, conversation (session_state a) <> Some (Some c)) ->
  exists e,
    exn_kind e = AttributeError
    /\ handle_user_input q a
       = (Ok tt,
          {| session_state := session_state a;
             page := page a ++ turn_prefix q
                            ++ [PlaceholderEmpty; Error (error_text e)];
             network := network a |}).
Proof.
  intros Hb Hc. unfold handle_user_input. rewrite blank_guard, Hb. simpl.
  destruct a as [[h c m w] pg net]. simpl in Hc.
  destruct c as [[c|]|].
  - exfalso. apply (Hc c). reflexivity.
  - eexists. split; [|run_handler; rewrite <- !app_assoc; reflexivity].
    reflexivity.
  - eexists. split; [|run_handler; rewrite <- !app_assoc; reflexivity].
    reflexivity.
Qed.

(** The remote call raises: the exception is caught and shown, one
    request was made, and the session state is what it was. *)
Lemma turn_remote_raises (q : str) (a : App) (c : ConversationChain)
      (e : exn) :
  blank q = false ->
  conversation (session_state a) = Some (Some c) ->
  remote (length (network a)) (request_of c q) = inl e ->
  handle_user_input q a
  = (Ok tt,
     {| session_state := session_state a;
        page := page a ++ turn_prefix q
                       ++ [PlaceholderEmpty; Error (error_text e)];
        network := network a ++ [(request_of c q, inl e)] |}).
Proof.
  intros Hb Hc Hr. unfold handle_user_input. rewrite blank_guard, Hb. simpl.
  destruct a as [s pg net]. simpl in Hc, Hr.
  run_handler. rewrite Hc. simpl. rewrite Hr. simpl.
  rewrite <- !app_assoc. reflexivity.
Qed.

(** The remote call replies: the exchange is saved in the chain's memory
    and appended to the transcript, and the reply is shown. *)
Lemma turn_reply (q : str) (a : App) (c : ConversationChain)
      (h : Transcript) (reply : str) :
  blank q = false ->
  conversation (session_state a) = Some (Some c) ->
  chat_history (session_state a) = Some h ->
  remote (length (network a)) (request_of c q) = inr reply ->
  handle_user_input q a
  = (Ok tt,
     {| session_state :=
          {| chat_history := Some (h ++ [{| human := q; AI := reply |}]);
             conversation :=
               Some (Some {| llm := llm c;
                             memory := save_context (memory c) q reply |});
             model := model (session_state a);
             memory_length := memory_length (session_state a) |};
        page := page a ++ turn_prefix q
                       ++ [PlaceholderEmpty; WriteText reply];
        network := network a ++ [(request_of c q, inr reply)] |}).
Proof.
  intros Hb Hc Hh Hr. unfold handle_user_input.
  rewrite blank_guard, Hb. simpl.
  destruct a as [s pg net]. simpl in Hc, Hh, Hr.
  run_handler. rewrite Hc. simpl. rewrite Hr. simpl. rewrite Hh. simpl.
  rewrite <- !app_assoc. reflexivity.
Qed.

(** The remote call replies but the transcript key does not exist: the
    attribute error of line 75 is caught and shown. *)
Lemma turn_reply_no_transcript (q : str) (a : App) (c : ConversationChain)
      (reply : str) :
  blank q = false ->
  conversation (session_state a) = Some (Some c) ->
  chat_history (session_state a) = None ->
  remote (length (network a)) (request_of c q) = inr reply ->
  exists e s',
    exn_kind e = AttributeError
    /\ chat_history s' = None
    /\ handle_user_input q a
       = (Ok tt,
          {| session_state := s';
             page := page a ++ turn_prefix q
                            ++ [PlaceholderEmpty; Error (error_text e)];
             network := network a ++ [(request_of c q, inr reply)] |}).
Proof.
  intros Hb Hc Hh Hr. unfold handle_user_input.
  rewrite blank_guard, Hb. simpl.
  destruct a as [s pg net]. simpl in Hc, Hh, Hr.
  run_handler. rewrite Hc. simpl. rewrite Hr. simpl. rewrite Hh. simpl.
  eexists. eexists. split; [|split]; cycle 2.
  - rewrite <- !app_assoc. reflexivity.
  - reflexivity.
  - simpl. reflexivity.
Qed.

End TurnExecution.

(** The context window after one more exchange is saved. *)
Lemma window_after_save (m : ConversationBufferWindowMemory) (h : Transcript)
      (q r : str) :
  chat_memory m = flat_map messages_of h ->
  (0 < k m)%Z ->
  turns_of (buffer (save_context m q r))
  = Some (most_recent (Z.to_nat (k m)) (h ++ [{| human := q; AI := r |}])).
Proof.
  intros Hm Hk. unfold buffer, save_context. simpl.
  destruct (Z.ltb_spec 0 (k m)) as [_|]; [|lia].
  rewrite Hm.
  change [HumanMessage q; AIMessage r]
    with (flat_map messages_of [{| human := q; AI := r |}]).
  rewrite <- flat_map_app.
  rewrite slice_last_messages by assumption.
  apply turns_of_messages.
Qed.

Section TurnProperties.

Context {E : Externals}.

(** C3. Empty-input no-op: for every text that is empty or made of
    whitespace only (equivalently, whose [strip()] is empty), Turn
    Execution returns normally and leaves the whole application state as
    it was: transcript, Conversation Session and its memory, page, and
    network log (no remote call). *)
Theorem C3_blank_input_noop (q : str) (a : App) :
  blank q = true ->
  strip q = []
  /\ handle_user_input q a = (Ok tt, a).
Proof.
  intros Hb. split.
  - apply strip_empty_iff. exact Hb.
  - apply turn_blank. exact Hb.
Qed.


(** Every Turn Execution returns normally, and a non-blank one ends by
    showing a reply or an error message. *)
Lemma turn_total (q : str) (a : App) :
  exists a',
    handle_user_input q a = (Ok tt, a')
    /\ (blank q = false ->
        exists shown,
          page a' = page a ++ turn_prefix q ++ [PlaceholderEmpty; shown]
          /\ ((exists reply, shown = WriteText reply)
              \/ (exists e, shown = Error (error_text e)))).
Proof.
  destruct (blank q) eqn:Hb.
  - exists a. split; [apply turn_blank; exact Hb | discriminate].
  - destruct (conversation (session_state a)) as [[c|]|] eqn:Hc.
    + destruct (remote (length (network a)) (request_of c q))
        as [e|reply] eqn:Hr.
      * eexists. split; [apply (turn_remote_raises q a Hb Hc Hr)|].
        intros _. eexists. split; [reflexivity|]. right. eauto.
      * destruct (chat_history (session_state a)) as [h|] eqn:Hh.
        -- eexists. split; [apply (turn_reply q a Hb Hc Hh Hr)|].
           intros _. eexists. split; [reflexivity|]. left. eauto.
        -- destruct (turn_reply_no_transcript q a Hb Hc Hh Hr)
             as (e & s' & _ & _ & Hrun).
           eexists. split; [exact Hrun|].
           intros _. eexists. split; [reflexivity|]. right. eauto.
    + destruct (turn_unset q a Hb) as (e & _ & Hrun).
      { intros c. rewrite Hc. discriminate. }
      eexists. split; [exact Hrun|].
      intros _. eexists. split; [reflexivity|]. right. eauto.
    + destruct (turn_unset q a Hb) as (e & _ & Hrun).
      { intros c. rewrite Hc. discriminate. }
      eexists. split; [exact Hrun|].
      intros _. eexists. split; [reflexivity|]. right. eauto.
Qed.

(** C10. Turn Execution never propagates an exception: for every text,
    every application state and every behaviour of the remote call,
    [handle_user_input] returns normally; a non-blank turn ends by showing
    either the reply or an error message; and when the Conversation
    Session is unset (or its key absent) the error shown is the caught
    attribute error, with no request made and the session state
    unchanged. *)
Theorem C10_no_exception_escapes (q : str) (a : App) :
  exists a',
    handle_user_input q a = (Ok tt, a')
    /\ (blank q = false ->
        exists shown,
          page a' = page a ++ turn_prefix q ++ [PlaceholderEmpty; shown]
          /\ ((exists reply, shown = WriteText reply)
              \/ (exists e, shown = Error (error_text e))))
    /\ (blank q = false ->
        (forall c, conversation (session_state a) <> Some (Some c)) ->
        exists e,
          exn_kind e = AttributeError
          /\ page a' = page a ++ turn_prefix q
                              ++ [PlaceholderEmpty; Error (error_text e)]
          /\ network a' = network a
          /\ session_state a' = session_state a).
Proof.
  destruct (turn_total q a) as (a' & Hrun & Hshown).
  exists a'. split; [exact Hrun|]. split; [exact Hshown|].
  intros Hb Hc.
  destruct (turn_unset q a Hb Hc) as (e & He & Hrun').
  rewrite Hrun in Hrun'. injection Hrun' as ->.
  exists e. simpl. repeat split. exact He.
Qed.

Lemma exchanges_length (l : list (str * outcome)) :
  length (exchanges l) = length (filter is_successful l).
Proof.
  induction l as [|[q [| |reply]] l IH]; simpl; try exact IH.
  - reflexivity.
  - rewrite IH. reflexivity.
Qed.

Lemma spec_outcomes_texts (qs : list str) (c : option ConversationChain)
      (i : nat) :
  map fst (spec_outcomes qs c i) = qs.
Proof.
  revert c i. induction qs as [|q qs IH]; intros c i; simpl.
  - reflexivity.
  - destruct (blank q); simpl; [rewrite IH; reflexivity|].
    destruct c as [chain|]; simpl; [|rewrite IH; reflexivity].
    destruct (remote i (request_of chain q)); simpl; rewrite IH; reflexivity.
Qed.

Lemma current_chain_built (s : SessionState) (c : ConversationChain) :
  conversation s = Some (Some c) -> current_chain s = Some c.
Proof. intros H. unfold current_chain. rewrite H. reflexivity. Qed.

Lemma current_chain_unset (s : SessionState) :
  (forall c, conversation s <> Some (Some c)) -> current_chain s = None.
Proof.
  intros H. unfold current_chain.
  destruct (conversation s) as [[c|]|]; try reflexivity.
  exfalso. apply (H c). reflexivity.
Qed.

(** A sequence of Turn Executions appends to the transcript the exchanges
    of its successful submissions, and nothing else. *)
Lemma run_turns_outcomes (qs : list str) (a : App) (h : Transcript) :
  chat_history (session_state a) = Some h ->
  exists a',
    run_turns qs a = (Ok tt, a')
    /\ chat_history (session_state a')
       = Some (h ++ exchanges
                      (spec_outcomes qs (current_chain (session_state a))
                                     (length (network a)))).
Proof.
  revert a h. induction qs as [|q qs IH]; intros a h Hh.
  - exists a. simpl. rewrite app_nil_r. split; [reflexivity | exact Hh].
  - simpl spec_outcomes. destruct (blank q) eqn:Hb.
    + destruct (IH a h Hh) as (a' & Hrun & Hh').
      exists a'. split.
      * simpl. rewrite (bind_ok _ _ _ (turn_blank q a Hb)). exact Hrun.
      * exact Hh'.
    + destruct (conversation (session_state a)) as [[c|]|] eqn:Hc.
      * rewrite (current_chain_built _ Hc).
        destruct (remote (length (network a)) (request_of c q))
          as [e|reply] eqn:Hr.
        -- pose proof (turn_remote_raises q a Hb Hc Hr) as Hrun1.
           match type of Hrun1 with
           | _ = (_, ?a1) => destruct (IH a1 h Hh) as (a' & Hrun & Hh')
           end.
           exists a'. split.
           ++ simpl. rewrite (bind_ok _ _ _ Hrun1). exact Hrun.
           ++ rewrite Hh'. simpl.
              rewrite (current_chain_built _ Hc), length_app, Nat.add_1_r.
              reflexivity.
        -- pose proof (turn_reply q a Hb Hc Hh Hr) as Hrun1.
           match type of Hrun1 with
           | _ = (_, ?a1) =>
               destruct (IH a1 (h ++ [{| human := q; AI := reply |}]) eq_refl)
                 as (a' & Hrun & Hh')
           end.
           exists a'. split.
           ++ simpl. rewrite (bind_ok _ _ _ Hrun1). exact Hrun.
           ++ rewrite Hh'. simpl.
              rewrite length_app, Nat.add_1_r, <- app_assoc. reflexivity.
      * destruct (turn_unset q a Hb) as (e & _ & Hrun1).
        { intros c. rewrite Hc. discriminate. }
        match type of Hrun1 with
        | _ = (_, ?a1) => destruct (IH a1 h Hh) as (a' & Hrun & Hh')
        end.
        exists a'. split.
        -- simpl. rewrite (bind_ok _ _ _ Hrun1). exact Hrun.
        -- rewrite Hh'. simpl. unfold current_chain. rewrite Hc. reflexivity.
      * destruct (turn_unset q a Hb) as (e & _ & Hrun1).
        { intros c. rewrite Hc. discriminate. }
        match type of Hrun1 with
        | _ = (_, ?a1) => destruct (IH a1 h Hh) as (a' & Hrun & Hh')
        end.
        exists a'. split.
        -- simpl. rewrite (bind_ok _ _ _ Hrun1). exact Hrun.
        -- rewrite Hh'. simpl. unfold current_chain. rewrite Hc. reflexivity.
Qed.

(** C4. Transcript length: for every sequence of submitted texts and every
    behaviour of the remote API, the Turn Executions started on an empty
    transcript return normally and leave as transcript exactly the
    exchanges {human: submitted text, AI: reply} of the successful
    submissions, in order, one per successful submission: the length of the
    transcript is the number of successful submissions, and failed or empty
    submissions contribute nothing.  The outcome of each submission is
    [spec_outcomes], which is read off the submitted texts and the remote
    API. *)
Theorem C4_transcript_counts_successes (qs : list str) (a : App) :
  chat_history (session_state a) = Some [] ->
  let submissions :=
    spec_outcomes qs (current_chain (session_state a))
                  (length (network a)) in
  exists a',
    run_turns qs a = (Ok tt, a')
    /\ chat_history (session_state a') = Some (exchanges submissions)
    /\ length (exchanges submissions)
       = length (filter is_successful submissions)
    /\ map fst submissions = qs.
Proof.
  intros Hh. cbv zeta.
  destruct (run_turns_outcomes qs a Hh) as (a' & Hrun & Hh').
  exists a'. split; [exact Hrun|]. split; [exact Hh'|].
  split; [apply exchanges_length | apply spec_outcomes_texts].
Qed.

(** A session in sync shows, as context window, the most recent exchanges
    of the transcript. *)
Lemma in_sync_window (c : ConversationChain) (h : Transcript) :
  chat_memory (memory c) = flat_map messages_of h ->
  (0 < k (memory c))%Z ->
  context_window c = Some (most_recent (Z.to_nat (k (memory c))) h).
Proof.
  intros Hm Hk. unfold context_window, buffer.
  destruct (Z.ltb_spec 0 (k (memory c))) as [_|]; [|lia].
  rewrite Hm, slice_last_messages by assumption.
  apply turns_of_messages.
Qed.

(** Turn Execution keeps the Conversation Session in sync with the
    transcript: a recorded turn enters both at once, a failed or blank one
    enters neither. *)
Lemma turn_keeps_sync (q : str) (a : App) :
  in_sync (session_state a) ->
  in_sync (session_state (snd (handle_user_input q a))).
Proof.
  intros (c & h & Hc & Hh & Hm).
  destruct (blank q) eqn:Hb.
  - rewrite (turn_blank q a Hb). exists c, h. auto.
  - destruct (remote (length (network a)) (request_of c q))
      as [e|reply] eqn:Hr.
    + rewrite (turn_remote_raises q a Hb Hc Hr). exists c, h. auto.
    + rewrite (turn_reply q a Hb Hc Hh Hr). simpl.
      eexists. eexists. split; [reflexivity|]. split; [reflexivity|].
      simpl. rewrite Hm, flat_map_app. reflexivity.
Qed.

Lemma run_turns_keeps_sync (qs : list str) (a : App) :
  in_sync (session_state a) ->
  in_sync (session_state (snd (run_turns qs a))).
Proof.
  revert a. induction qs as [|q qs IH]; intros a Hs.
  - exact Hs.
  - simpl. unfold bind.
    pose proof (turn_keeps_sync q a Hs) as H1.
    destruct (turn_total q a) as (a1 & Hrun & _).
    rewrite Hrun in *. simpl in H1. apply IH. exact H1.
Qed.

End TurnProperties.

(* ================================================================= *)
(** ** Session State Manager *)

Section SessionStateManager.

Context {E : Externals}.

Lemma initialize_session_state_spec (a : App) :
  initialize_session_state a
  = (Ok tt,
     {| session_state :=
          {| chat_history := default_fill [] (chat_history (session_state a));
             conversation := default_fill None (conversation (session_state a));
             model := default_fill default_model (model (session_state a));
             memory_length := default_fill 5%Z (memory_length (session_state a)) |};
        page := page a;
        network := network a |}).
Proof.
  destruct a as [[h c m w] pg net].
  destruct h, c, m, w; reflexivity.
Qed.

(** C7. [initialize_session_state] is a default-fill: it returns normally
    for every state; every key that exists keeps its value; every absent
    key receives its default (empty transcript, unset conversation, the
    first supported model, window 5); page and network are untouched;
    running it again changes nothing; and on the empty session it yields
    exactly the default state. *)
Theorem C7_initialize_default_fill (a : App) :
  exists a',
    initialize_session_state a = (Ok tt, a')
    /\ chat_history (session_state a')
       = default_fill [] (chat_history (session_state a))
    /\ conversation (session_state a')
       = default_fill None (conversation (session_state a))
    /\ model (session_state a')
       = default_fill (py "llama-3.1-8b-instant") (model (session_state a))
    /\ memory_length (session_state a')
       = default_fill 5%Z (memory_length (session_state a))
    /\ page a' = page a
    /\ network a' = network a
    /\ initialize_session_state a' = (Ok tt, a')
    /\ initialize_session_state
         {| session_state := empty_session;
            page := page a; network := network a |}
       = (Ok tt,
          {| session_state :=
               {| chat_history := Some []; conversation := Some None;
                  model := Some (hd [] SUPPORTED_MODELS);
                  memory_length := Some 5%Z |};
             page := page a; network := network a |}).
Proof.
  eexists. split; [apply initialize_session_state_spec|].
  simpl. repeat split.
  rewrite initialize_session_state_spec. simpl.
  destruct a as [[h c m w] pg net]. destruct h, c, m, w; reflexivity.
Qed.

End SessionStateManager.

(* ================================================================= *)
(** ** Reset *)

Section Reset.

Context {E : Externals}.

(** The builder never changes the application state, whether it returns
    or raises. *)
Lemma create_conversation_pure (m : str) (w : Z) (a : App) :
  snd (create_conversation m w a) = a.
Proof.
  unfold create_conversation, ChatGroq_new, bind, attr, ret, raise.
  destruct (chat_history (session_state a)); [|reflexivity].
  destruct (ChatGroq_init groq_api_key m); reflexivity.
Qed.

(** The builder fails only when the transcript key is absent or when the
    client constructor raises. *)
Lemma create_conversation_failures (m : str) (w : Z) (a a' : App) (e : exn) :
  create_conversation m w a = (Raise e, a') ->
  (chat_history (session_state a) = None /\ exn_kind e = AttributeError)
  \/ ChatGroq_init groq_api_key m = Some e.
Proof.
  unfold create_conversation, ChatGroq_new, bind, attr, ret, raise.
  destruct (chat_history (session_state a)).
  - destruct (ChatGroq_init groq_api_key m); [|discriminate].
    intros H. injection H as <- _. right. reflexivity.
  - intros H. injection H as <- _. left. split; reflexivity.
Qed.

(** What a reset yields when the configuration exists and the client can
    be constructed. *)
Lemma reset_conversation_ok (a : App) (m : str) (w : Z) :
  model (session_state a) = Some m ->
  memory_length (session_state a) = Some w ->
  ChatGroq_init groq_api_key m = None ->
  reset_conversation a
  = (Ok tt,
     {| session_state :=
          {| chat_history := Some [];
             conversation :=
               Some (Some {| llm := {| groq_api_key_of := groq_api_key;
                                       model_name := m |};
                             memory := new_memory w |});
             model := Some m;
             memory_length := Some w |};
        page := page a ++ [Rerun];
        network := network a |}).
Proof.
  intros Hm Hw Hc. destruct a as [[h c m0 w0] pg net]. simpl in Hm, Hw.
  subst m0 w0.
  unfold reset_conversation, create_conversation, ChatGroq_new, bind, attr,
    ret, raise, set_chat_history, set_conversation, render, with_session.
  simpl. rewrite Hc. reflexivity.
Qed.

(** C6. Reset idempotence: for every application state, a second
    [reset_conversation] right after a first one has the same outcome and
    leaves the same session state and network log as the first alone; the
    transcript is then empty; and when the configuration exists and the
    client can be constructed, that state is the empty transcript with a
    Conversation Session freshly built from it under the current
    configuration (empty context window). *)
Theorem C6_reset_idempotent (a : App) :
  let once := reset_conversation a in
  let twice := reset_conversation (snd once) in
  fst twice = fst once
  /\ session_state (snd twice) = session_state (snd once)
  /\ network (snd twice) = network (snd once)
  /\ network (snd once) = network a
  /\ chat_history (session_state (snd once)) = Some []
  /\ (forall m w,
        model (session_state a) = Some m ->
        memory_length (session_state a) = Some w ->
        ChatGroq_init groq_api_key m = None ->
        fst once = Ok tt
        /\ session_state (snd once)
           = {| chat_history := Some [];
                conversation :=
                  Some (Some {| llm := {| groq_api_key_of := groq_api_key;
                                          model_name := m |};
                                memory := new_memory w |});
                model := Some m;
                memory_length := Some w |}
        /\ buffer (new_memory w) = []).
Proof.
  cbv zeta. split; [|split; [|split; [|split; [|split]]]].
  6: { intros m w Hm Hw Hc. rewrite (reset_conversation_ok a Hm Hw Hc).
       simpl. repeat split. unfold buffer. simpl.
       destruct (0 <? w)%Z; [apply skipn_nil | reflexivity]. }
  all: destruct a as [[h c m w] pg net];
    unfold reset_conversation, create_conversation, ChatGroq_new, bind, attr,
      ret, raise, set_chat_history, set_conversation, render, with_session;
    simpl;
    destruct m as [m|]; simpl; try reflexivity;
    destruct w as [w|]; simpl; try reflexivity;
    destruct (ChatGroq_init groq_api_key m) eqn:Hc; simpl;
    try rewrite Hc; reflexivity.
Qed.

End Reset.

(* ================================================================= *)
(** ** Configuration Change *)

Lemma eqb_eq (x y : str) : eqb x y = true <-> x = y.
Proof.
  unfold eqb. destruct (list_eq_dec N.eq_dec x y); split; intros H;
    try reflexivity; try assumption; try discriminate; contradiction.
Qed.

Lemma keeps_ret {A} (x : A) : keeps_transcript (ret x).
Proof. intros a. reflexivity. Qed.

Lemma keeps_raise {A} (e : exn) : keeps_transcript (@raise A e).
Proof. intros a. reflexivity. Qed.

Lemma keeps_render (e : ui_event) : keeps_transcript (render e).
Proof. intros a. reflexivity. Qed.

Lemma keeps_attr {A} (name : string) (field : SessionState -> option A) :
  keeps_transcript (attr name field).
Proof. intros a. unfold attr. destruct (field (session_state a)); reflexivity. Qed.

Lemma keeps_set_model (v : str) : keeps_transcript (set_model v).
Proof. intros a. reflexivity. Qed.

Lemma keeps_set_memory_length (v : Z) : keeps_transcript (set_memory_length v).
Proof. intros a. reflexivity. Qed.

Lemma keeps_set_conversation (v : option ConversationChain) :
  keeps_transcript (set_conversation v).
Proof. intros a. reflexivity. Qed.

Lemma keeps_bind {A B} (c : M A) (f : A -> M B) :
  keeps_transcript c -> (forall x, keeps_transcript (f x)) ->
  keeps_transcript (bind c f).
Proof.
  intros Hc Hf a. unfold bind. specialize (Hc a).
  destruct (c a) as [[x|e] a1]; simpl in *.
  - rewrite (Hf x a1). exact Hc.
  - exact Hc.
Qed.

Lemma keeps_if {A} (b : bool) (c d : M A) :
  keeps_transcript c -> keeps_transcript d ->
  keeps_transcript (if b then c else d).
Proof. destruct b; auto. Qed.

Create HintDb frame.
#[export] Hint Resolve keeps_ret keeps_raise keeps_render keeps_attr
  keeps_set_model keeps_set_memory_length keeps_set_conversation
  keeps_if : frame.

Section ConfigurationChange.

Context {E : Externals}.

Lemma keeps_create_conversation (m : str) (w : Z) :
  keeps_transcript (create_conversation m w).
Proof. intros a. rewrite create_conversation_pure. reflexivity. Qed.

Lemma keeps_index (l : list str) (x : str) : keeps_transcript (index l x).
Proof. unfold index. destruct (index_from 0 x l); auto with frame. Qed.

Ltac frame :=
  repeat first
    [ apply keeps_create_conversation
    | apply keeps_index
    | solve [auto with frame]
    | apply keeps_if
    | apply keeps_bind; [|intros] ].

Lemma keeps_handle_model_change : keeps_transcript handle_model_change.
Proof. unfold handle_model_change. frame. Qed.

(** The sidebar never assigns the transcript, whatever the widgets return
    and whether or not a rebuild fails. *)
Lemma keeps_sidebar (w : widgets) : keeps_transcript (sidebar w).
Proof.
  unfold sidebar.
  repeat first
    [ apply keeps_handle_model_change
    | apply keeps_index
    | solve [auto with frame]
    | apply keeps_if
    | apply keeps_bind; [|intros] ].
Qed.

Lemma handle_model_change_ok (a : App) (m : str) (w : Z) (h : Transcript) :
  chat_history (session_state a) = Some h ->
  model (session_state a) = Some m ->
  memory_length (session_state a) = Some w ->
  ChatGroq_init groq_api_key m = None ->
  handle_model_change a
  = (Ok tt,
     {| session_state :=
          {| chat_history := Some h;
             conversation := Some (Some (rebuilt m w h));
             model := Some m; memory_length := Some w |};
        page := page a; network := network a |}).
Proof.
  intros Hh Hm Hw Hc. unfold handle_model_change.
  rewrite (bind_ok _ _ _ (attr_present _ _ _ Hm)).
  rewrite (bind_ok _ _ _ (attr_present _ _ _ Hw)).
  rewrite (bind_ok _ _ _ (create_conversation_ok a m w Hh Hc)).
  unfold set_conversation, with_session. rewrite Hh, Hm, Hw. reflexivity.
Qed.

(** A rebuild leaves the Conversation Session in sync with the
    transcript. *)
Lemma rebuild_in_sync (a : App) (m : str) (w : Z) (h : Transcript) :
  chat_history (session_state a) = Some h ->
  model (session_state a) = Some m ->
  memory_length (session_state a) = Some w ->
  ChatGroq_init groq_api_key m = None ->
  in_sync (session_state (snd (handle_model_change a))).
Proof.
  intros Hh Hm Hw Hc. rewrite (handle_model_change_ok a Hh Hm Hw Hc).
  simpl. exists (rebuilt m w h), h. repeat split.
  unfold rebuilt. simpl. rewrite preload_new. reflexivity.
Qed.

(** A stored model outside the supported list stops the sidebar at the
    [index] call of line 121, before anything is built. *)
Lemma sidebar_unsupported_stored_model (w : widgets) (a : App) (m0 : str) :
  model (session_state a) = Some m0 ->
  index_from 0 m0 SUPPORTED_MODELS = None ->
  exists e,
    exn_kind e = ValueError
    /\ sidebar w a
       = (Raise e,
          {| session_state := session_state a;
             page := page a ++ [SidebarTitle; Subheader "Model Selection"];
             network := network a |}).
Proof.
  intros Hm Hi. eexists. split; cycle 1.
  - unfold sidebar, index.
    erewrite bind_ok by reflexivity.
    erewrite bind_ok by reflexivity.
    erewrite bind_ok by (apply attr_present; exact Hm).
    rewrite Hi. unfold bind, raise. simpl.
    rewrite <- app_assoc. reflexivity.
  - reflexivity.
Qed.

(** The sidebar on an initialised session whose client can be
    constructed for the selected model: the configuration takes the
    widgets' values, the transcript stays, and the Conversation Session is
    rebuilt from it exactly when a value differs from the stored one. *)
Lemma sidebar_ok (w : widgets) (a : App) (h : Transcript)
      (c0 : option (option ConversationChain)) (m0 : str) (w0 : Z)
      (i : nat) :
  session_state a
  = {| chat_history := Some h; conversation := c0;
       model := Some m0; memory_length := Some w0 |} ->
  index_from 0 m0 SUPPORTED_MODELS = Some i ->
  ChatGroq_init groq_api_key (selected_model w) = None ->
  sidebar w a
  = (Ok tt,
     {| session_state :=
          {| chat_history := Some h;
             conversation :=
               if negb (eqb (selected_model w) m0)
                  || negb (slider_value w =? w0)%Z
               then Some (Some (rebuilt (selected_model w)
                                        (slider_value w) h))
               else c0;
             model := Some (selected_model w);
             memory_length := Some (slider_value w) |};
        page := page a ++ sidebar_page i w0;
        network := network a |}).
Proof.
  intros Hs Hi Hc. destruct a as [s pg net]. simpl in Hs. subst s.
  destruct w as [m1 w1 sub]. cbn [selected_model slider_value] in *.
  unfold sidebar, index. cbn [selected_model slider_value].
  unfold bind at 1 2; unfold render at 1 2; cbn [session_state].
  unfold bind at 1; unfold attr at 1; cbn [session_state model].
  rewrite Hi.
  unfold handle_model_change, create_conversation, ChatGroq_new, bind,
    attr, render, ret, raise, set_model, set_memory_length,
    set_conversation, with_session, rebuilt, sidebar_page.
  simpl.
  destruct (eqb m1 m0) eqn:Hm; simpl.
  - apply eqb_eq in Hm. subst m0.
    destruct (w1 =? w0)%Z eqn:Hw; simpl.
    + apply Z.eqb_eq in Hw. subst w0.
      destruct (credential_available groq_api_key);
        simpl; rewrite <- !app_assoc; reflexivity.
    + rewrite Hc.
      destruct (credential_available groq_api_key);
        simpl; rewrite <- !app_assoc; reflexivity.
  - rewrite Hc. simpl.
    destruct (w1 =? w0)%Z eqn:Hw; simpl.
    + apply Z.eqb_eq in Hw. subst w0.
      destruct (credential_available groq_api_key);
        simpl; rewrite <- !app_assoc; reflexivity.
    + rewrite Hc.
      destruct (credential_available groq_api_key);
        simpl; rewrite <- !app_assoc; reflexivity.
Qed.

(** C5. Configuration change preserves the transcript: the sidebar never
    assigns the transcript, whatever the widgets return; and on an
    initialised session whose stored model is a supported one and whose
    client can be constructed for the selected model, a new model or a new
    memory window (differing from the stored value) updates the
    configuration to the selected values and rebuilds the Conversation
    Session from the existing transcript, so that its context window is
    the [slider_value] most recent exchanges, with no request made. *)
Theorem C5_configuration_change (w : widgets) (a : App) (h : Transcript)
        (c0 : option (option ConversationChain)) (m0 : str) (w0 : Z)
        (i : nat) :
  session_state a
  = {| chat_history := Some h; conversation := c0;
       model := Some m0; memory_length := Some w0 |} ->
  index_from 0 m0 SUPPORTED_MODELS = Some i ->
  ChatGroq_init groq_api_key (selected_model w) = None ->
  selected_model w <> m0 \/ slider_value w <> w0 ->
  (1 <= slider_value w <= 15)%Z ->
  keeps_transcript (sidebar w)
  /\ exists a',
      sidebar w a = (Ok tt, a')
      /\ session_state a'
         = {| chat_history := Some h;
              conversation :=
                Some (Some (rebuilt (selected_model w) (slider_value w) h));
              model := Some (selected_model w);
              memory_length := Some (slider_value w) |}
      /\ context_window (rebuilt (selected_model w) (slider_value w) h)
         = Some (most_recent (Z.to_nat (slider_value w)) h)
      /\ network a' = network a.
Proof.
  intros Hs Hi Hc Hd Hw. split; [apply keeps_sidebar|].
  eexists. split; [apply (sidebar_ok w a Hs Hi Hc)|].
  simpl. repeat split.
  - assert (Hb : negb (eqb (selected_model w) m0)
                 || negb (slider_value w =? w0)%Z = true).
    { apply orb_true_iff. destruct Hd as [Hd|Hd].
      - left. apply negb_true_iff.
        destruct (eqb (selected_model w) m0) eqn:Heq; [|reflexivity].
        apply eqb_eq in Heq. contradiction.
      - right. apply negb_true_iff. apply Z.eqb_neq. exact Hd. }
    rewrite Hb. reflexivity.
  - unfold context_window, rebuilt. simpl. apply preload_window. lia.
Qed.

End ConfigurationChange.

(* ================================================================= *)
(** ** The script run and the credential *)

Section ScriptRun.

Context {E : Externals}.

Lemma for_each_history (h : Transcript) (a : App) :
  for_each h (fun message =>
                render (ChatMessage user (human message)) ;;
                render (ChatMessage assistant (AI message))) a
  = (Ok tt,
     {| session_state := session_state a;
        page := page a ++ history_page h;
        network := network a |}).
Proof.
  revert a. induction h as [|t h IH]; intros a.
  - simpl. unfold ret, history_page. simpl. rewrite app_nil_r.
    rewrite app_eta. reflexivity.
  - simpl. unfold bind at 1. unfold bind at 1. unfold render at 1 2.
    rewrite IH. simpl. unfold history_page. simpl.
    rewrite <- !app_assoc. reflexivity.
Qed.

(** The sidebar when the widgets return the stored values: nothing is
    rebuilt. *)
Lemma sidebar_idle (w : widgets) (a : App) (h : Transcript)
      (c0 : option (option ConversationChain)) (i : nat) :
  session_state a
  = {| chat_history := Some h; conversation := c0;
       model := Some (selected_model w);
       memory_length := Some (slider_value w) |} ->
  index_from 0 (selected_model w) SUPPORTED_MODELS = Some i ->
  forall m0 w0, selected_model w = m0 -> slider_value w = w0 ->
  sidebar w a
  = (Ok tt,
     {| session_state := session_state a;
        page := page a ++ sidebar_page i w0;
        network := network a |}).
Proof.
  intros Hs Hi m0 w0 <- <-. destruct a as [s pg net]. simpl in Hs. subst s.
  destruct w as [m1 w1 sub]. cbn [selected_model slider_value] in *.
  unfold sidebar, index. cbn [selected_model slider_value].
  unfold bind at 1 2; unfold render at 1 2; cbn [session_state].
  unfold bind at 1; unfold attr at 1; cbn [session_state model].
  rewrite Hi.
  assert (Hrefl : eqb m1 m1 = true) by (apply eqb_eq; reflexivity).
  unfold bind, attr, render, ret, sidebar_page. simpl.
  rewrite Hrefl. simpl. rewrite Z.eqb_refl. simpl.
  destruct (credential_available groq_api_key);
    simpl; rewrite <- !app_assoc; reflexivity.
Qed.

(** Runs [main] up to the lazy construction of lines 159-163, on an
    initialised session whose widgets are left at the stored values. *)
Ltac run_prelude Hi Hm Hw :=
  unfold main;
  erewrite bind_ok by reflexivity;
  erewrite bind_ok by apply initialize_session_state_spec;
  erewrite bind_ok
    by (eapply sidebar_idle;
        [rewrite Hm, Hw; reflexivity | rewrite Hm; exact Hi
         | exact Hm | exact Hw]);
  erewrite bind_ok by reflexivity;
  erewrite bind_ok by reflexivity;
  erewrite bind_ok by reflexivity.

(** When the Conversation Session is unset and the client constructor
    raises, the exception leaves [main]: the run stops at line 160, before
    the credential check of lines 171-173. *)
Lemma main_unset_construction_raises (w : widgets) (a : App)
      (h : Transcript) (m0 : str) (w0 : Z) (i : nat) (e : exn) :
  session_state a
  = {| chat_history := Some h; conversation := Some None;
       model := Some m0; memory_length := Some w0 |} ->
  index_from 0 m0 SUPPORTED_MODELS = Some i ->
  selected_model w = m0 ->
  slider_value w = w0 ->
  ChatGroq_init groq_api_key m0 = Some e ->
  main w a
  = (Raise e,
     {| session_state := session_state a;
        page := page a ++ page_before_build i m0 w0;
        network := network a |}).
Proof.
  intros Hs Hi Hm Hw Hc. destruct a as [s pg net]. simpl in Hs. subst s.
  run_prelude Hi Hm Hw.
  unfold attr, create_conversation, ChatGroq_new, bind, raise,
    page_before_build.
  cbn. rewrite Hc. rewrite <- !app_assoc. reflexivity.
Qed.

(** When the credential is missing but the client constructor accepts it,
    [main] reaches the check of lines 171-173: it shows the missing-key
    message and returns without offering the chat input and without any
    request. *)
Lemma main_missing_credential_checked (w : widgets) (a : App)
      (h : Transcript) (c0 : option ConversationChain) (m0 : str) (w0 : Z)
      (i : nat) :
  session_state a
  = {| chat_history := Some h; conversation := Some c0;
       model := Some m0; memory_length := Some w0 |} ->
  index_from 0 m0 SUPPORTED_MODELS = Some i ->
  selected_model w = m0 ->
  slider_value w = w0 ->
  credential_available groq_api_key = false ->
  ChatGroq_init groq_api_key m0 = None ->
  exists c1,
    main w a
    = (Ok tt,
       {| session_state :=
            {| chat_history := Some h; conversation := Some (Some c1);
               model := Some m0; memory_length := Some w0 |};
          page := page a ++ page_before_build i m0 w0
                         ++ history_page h ++ [Error missing_key_text];
          network := network a |}).
Proof.
  intros Hs Hi Hm Hw Hk Hc. destruct a as [s pg net]. simpl in Hs. subst s.
  exists (match c0 with Some c => c | None => rebuilt m0 w0 h end).
  run_prelude Hi Hm Hw.
  erewrite bind_ok by reflexivity.
  destruct c0 as [c|].
  - erewrite bind_ok by reflexivity.
    erewrite bind_ok by reflexivity.
    erewrite bind_ok by apply for_each_history.
    rewrite Hk. unfold render, page_before_build. cbn.
    rewrite <- !app_assoc. reflexivity.
  - erewrite bind_ok.
    2: { erewrite bind_ok by reflexivity.
         erewrite bind_ok by reflexivity.
         erewrite bind_ok
           by (eapply create_conversation_ok; [reflexivity | exact Hc]).
         reflexivity. }
    erewrite bind_ok by reflexivity.
    erewrite bind_ok by apply for_each_history.
    rewrite Hk. unfold render, page_before_build, rebuilt. cbn.
    rewrite <- !app_assoc. reflexivity.
Qed.

End ScriptRun.

(* ================================================================= *)
(** ** Credential and model checks of the builder *)

(** C8. Missing credential, on the first run of the script with the
    collaborators as specified: the credential is unavailable, the builder
    fails with [CredentialMissing] without touching the state, and that
    exception leaves [main] at the lazy construction of lines 159-163: the
    run ends with the exception, the Conversation Session still unset, no
    chat input offered and no request made; the page stops after the
    current-model line, so the check of lines 171-173 is not reached. *)
Theorem C8_missing_credential_escapes_main :
  let E := Sample.no_credential in
  let e := Exn CredentialMissing (py "The api_key client option must be set") in
  credential_available groq_api_key = false
  /\ create_conversation Sample.llama 5 (Sample.app Sample.defaults)
     = (Raise e, Sample.app Sample.defaults)
  /\ main Sample.idle (Sample.app empty_session)
     = (Raise e,
        {| session_state := Sample.defaults;
           page := page_before_build 0 Sample.llama 5;
           network := [] |})
  /\ ~ In ChatInput (page_before_build 0 Sample.llama 5).
Proof.
  cbv zeta. split; [reflexivity|]. split; [reflexivity|].
  split; [vm_compute; reflexivity|].
  vm_compute. intros H.
  repeat (destruct H as [H|H]; [discriminate|]). exact H.
Qed.

(** C9. The builder performs no check of the model identifier: with the
    collaborators as specified, for every model identifier (supported or
    not) and every memory window, when a credential is present and the
    transcript exists, construction returns the chain bound to that model
    over the preloaded memory and leaves the application state untouched
    (no request at build time). *)
Theorem C9_construction_without_model_check
        (key : option str) (api : nat -> request -> exn + str)
        (m : str) (w : Z) (a : App) (h : Transcript) :
  credential_available key = true ->
  chat_history (session_state a) = Some h ->
  let E := spec_externals key api in
  create_conversation m w a = (Ok (rebuilt m w h), a)
  /\ model_name (llm (rebuilt m w h)) = m
  /\ network (snd (create_conversation m w a)) = network a.
Proof.
  intros Hk Hh E.
  assert (Hc : ChatGroq_init groq_api_key m = None).
  { simpl. unfold ChatGroq_spec. rewrite Hk. reflexivity. }
  rewrite (create_conversation_ok a m w Hh Hc). repeat split.
Qed.

(** An identifier outside the supported set is accepted by the builder:
    construction does not fail with [ConfigurationError]. *)
Lemma C9_unsupported_model_accepted :
  let E := Sample.online in
  let a := Sample.app Sample.defaults in
  ~ In (py "gpt-4") SUPPORTED_MODELS
  /\ create_conversation (py "gpt-4") 5 a = (Ok (rebuilt (py "gpt-4") 5 []), a)
  /\ ~ (exists e a', create_conversation (py "gpt-4") 5 a = (Raise e, a')
                     /\ exn_kind e = ConfigurationError).
Proof.
  cbv zeta. split; [|split].
  - simpl. intros [H|[H|[]]]; discriminate.
  - reflexivity.
  - intros (e & a' & H & _). discriminate.
Qed.

(* ================================================================= *)
(** ** Instances on sample data *)

(** The scenario of the specification with a memory window of 2: the three
    requests carry 0, 1 and 2 prior exchanges; afterwards the transcript
    holds the three exchanges and the context window the last two. *)
Example scenario_memory_window_two :
  let E := Sample.scripted in
  let t1 := {| human := py "hello"; AI := py "hi there" |} in
  let t2 := {| human := py "how are you"; AI := py "fine, thanks" |} in
  let t3 := {| human := py "and you?"; AI := py "sure" |} in
  let a0 := snd (handle_model_change (Sample.app (Sample.session [] None 2))) in
  let a3 := snd (run_turns [py "hello"; py "how are you"; py "and you?"] a0) in
  map (fun c => turns_of (req_history (fst c))) (network a3)
  = [Some []; Some [t1]; Some [t1; t2]]
  /\ chat_history (session_state a3) = Some [t1; t2; t3]
  /\ match conversation (session_state a3) with
     | Some (Some c) => context_window c
     | _ => None
     end = Some [t2; t3].
Proof. vm_compute. repeat split. Qed.

(** Ten turns, window 3: the context holds the last three. *)
Lemma C1_bounded_window_witness :
  exists c,
    @create_conversation Sample.online Sample.llama 3
      (Sample.app (Sample.session Sample.ten_turns None 5))
    = (Ok c, Sample.app (Sample.session Sample.ten_turns None 5))
    /\ context_window c = Some (map Sample.turn [7; 8; 9]%N)
    /\ length (map Sample.turn [7; 8; 9]%N) = Nat.min 10 3.
Proof.
  destruct (@C1_bounded_window Sample.online
              (Sample.app (Sample.session Sample.ten_turns None 5))
              Sample.llama 3 Sample.ten_turns)
    as (c & H1 & _ & H3 & H4 & _); [lia | reflexivity | reflexivity |].
  exists c. split; [exact H1 | split; [exact H3 | exact H4]].
Defined.


(** A text of spaces, a tab, a newline, a no-break space and an ideographic space. *)
Lemma C3_blank_input_noop_witness :
  let q := [32; 9; 10; 160; 12288]%N in
  let a := Sample.app (Sample.session Sample.ten_turns
                         (Some (Sample.chain Sample.ten_turns 5)) 5) in
  blank q = true
  /\ strip q = []
  /\ @handle_user_input Sample.online q a = (Ok tt, a).
Proof.
  cbv zeta. split; [reflexivity|].
  apply (@C3_blank_input_noop Sample.online). reflexivity.
Defined.

(** Four submissions, one blank and one failed: the transcript counts the replies. *)
Lemma C4_transcript_counts_successes_witness :
  let a := Sample.app (Sample.session [] (Some (Sample.chain [] 2)) 2) in
  let qs := [py "hello"; py "  "; py "how are you"; py "third"] in
  exists a',
    @run_turns Sample.flaky qs a = (Ok tt, a')
    /\ chat_history (session_state a')
       = Some [{| human := py "hello"; AI := py "re: hello" |};
               {| human := py "third"; AI := py "re: third" |}]
    /\ 2 = length
             (filter is_successful
                (@spec_outcomes Sample.flaky qs (Some (Sample.chain [] 2)) 0)).
Proof.
  cbv zeta.
  destruct (@C4_transcript_counts_successes Sample.flaky
              [py "hello"; py "  "; py "how are you"; py "third"]
              (Sample.app (Sample.session [] (Some (Sample.chain [] 2)) 2)))
    as (a' & H1 & H2 & H3 & _); [reflexivity|].
  exists a'. split; [exact H1|]. split; [exact H2 | exact H3].
Defined.

(** Ten turns, memory window changed from 5 to 3: the transcript keeps its ten turns and the context holds the last three. *)
Lemma C5_configuration_change_witness :
  let E := Sample.online in
  let a := Sample.app (Sample.session Sample.ten_turns
                         (Some (Sample.chain Sample.ten_turns 5)) 5) in
  let w := {| selected_model := Sample.llama; slider_value := 3;
              submitted := None |} in
  exists a' h c,
    sidebar w a = (Ok tt, a')
    /\ chat_history (session_state a') = Some h
    /\ length h = 10
    /\ memory_length (session_state a') = Some 3%Z
    /\ conversation (session_state a') = Some (Some c)
    /\ context_window c = Some (map Sample.turn [7; 8; 9]%N).
Proof.
  cbv zeta.
  destruct (@C5_configuration_change Sample.online
              {| selected_model := Sample.llama; slider_value := 3;
                 submitted := None |}
              (Sample.app (Sample.session Sample.ten_turns
                             (Some (Sample.chain Sample.ten_turns 5)) 5))
              Sample.ten_turns
              (Some (Some (Sample.chain Sample.ten_turns 5)))
              Sample.llama 5 0)
    as (_ & a' & H1 & H2 & H3 & _).
  - reflexivity.
  - reflexivity.
  - reflexivity.
  - right. simpl. lia.
  - simpl. lia.
  - exists a', Sample.ten_turns,
      (@rebuilt Sample.online Sample.llama 3 Sample.ten_turns).
    rewrite H2. simpl.
    split; [exact H1|]. split; [reflexivity|]. split; [reflexivity|].
    split; [reflexivity|]. split; [reflexivity|]. exact H3.
Defined.

(** Two resets of a session with ten turns leave the empty transcript and a fresh chain. *)
Lemma C6_reset_idempotent_witness :
  let E := Sample.online in
  let a := Sample.app (Sample.session Sample.ten_turns
                         (Some (Sample.chain Sample.ten_turns 5)) 5) in
  session_state (snd (reset_conversation (snd (reset_conversation a))))
  = Sample.session [] (Some (Sample.chain [] 5)) 5.
Proof.
  cbv zeta.
  destruct (@C6_reset_idempotent Sample.online
              (Sample.app (Sample.session Sample.ten_turns
                             (Some (Sample.chain Sample.ten_turns 5)) 5)))
    as (_ & H2 & _ & _ & _ & H6).
  cbv zeta in H2, H6.
  destruct (H6 Sample.llama 5%Z) as (_ & H7 & _);
    [reflexivity | reflexivity | reflexivity |].
  rewrite H2. rewrite H7. reflexivity.
Defined.

(** Construction for the second supported model with the largest window. *)
Lemma C9_construction_without_model_check_witness :
  let E := Sample.online in
  let a := Sample.app Sample.defaults in
  create_conversation Sample.deepseek 15 a
  = (Ok (rebuilt Sample.deepseek 15 []), a).
Proof.
  cbv zeta.
  destruct (@C9_construction_without_model_check Sample.key Sample.echo_api
              Sample.deepseek 15 (Sample.app Sample.defaults) [])
    as (H1 & _); [reflexivity | reflexivity |].
  exact H1.
Defined.

(** A turn on a session that was never built: the attribute error is shown. *)
Lemma C10_no_exception_escapes_witness :
  let a := Sample.app Sample.defaults in
  exists a' e,
    @handle_user_input Sample.online (py "hello") a = (Ok tt, a')
    /\ exn_kind e = AttributeError
    /\ page a' = turn_prefix (py "hello")
                   ++ [PlaceholderEmpty; Error (error_text e)]
    /\ network a' = []
    /\ session_state a' = Sample.defaults.
Proof.
  cbv zeta.
  destruct (@C10_no_exception_escapes Sample.online (py "hello")
              (Sample.app Sample.defaults))
    as (a' & H1 & _ & H3).
  destruct H3 as (e & He & Hp & Hn & Hs).
  - reflexivity.
  - intros c. discriminate.
  - exists a', e. repeat split; assumption.
Defined.

(* ================================================================= *)
(** ** Further properties of Turn Execution *)

Section TurnInvariants.

Context {E : Externals}.

(** Every Turn Execution returns normally and goes one of the five ways. *)
Lemma turn_step_spec (q : str) (a : App) :
  exists a', handle_user_input q a = (Ok tt, a') /\ turn_step q a a'.
Proof.
  destruct (blank q) eqn:Hb.
  - exists a. split; [apply turn_blank; exact Hb | apply step_blank; exact Hb].
  - destruct (conversation (session_state a)) as [[c|]|] eqn:Hc.
    + destruct (remote (length (network a)) (request_of c q))
        as [e|reply] eqn:Hr.
      * eexists. split; [apply (turn_remote_raises q a Hb Hc Hr)|].
        apply step_failed; assumption.
      * destruct (chat_history (session_state a)) as [h|] eqn:Hh.
        -- eexists. split; [apply (turn_reply q a Hb Hc Hh Hr)|].
           apply step_recorded; assumption.
        -- eexists. split; [|apply (step_unrecorded q a Hb Hc Hh Hr)].
           unfold handle_user_input. rewrite blank_guard, Hb. simpl.
           destruct a as [s pg net]. simpl in Hc, Hh, Hr.
           unfold conversation_invoke, chat_history_append, chain_invoke,
             try_except, bind, attr, render, ret, raise, set_conversation,
             set_chat_history, with_session; simpl.
           rewrite Hc. simpl. rewrite Hr. simpl. rewrite Hh. simpl.
           rewrite <- !app_assoc. reflexivity.
    + destruct (turn_unset q a Hb) as (e & He & Hrun).
      { intros c. rewrite Hc. discriminate. }
      eexists. split; [exact Hrun|]. apply step_unset; try assumption.
      intros c. rewrite Hc. discriminate.
    + destruct (turn_unset q a Hb) as (e & He & Hrun).
      { intros c. rewrite Hc. discriminate. }
      eexists. split; [exact Hrun|]. apply step_unset; try assumption.
      intros c. rewrite Hc. discriminate.
Qed.

(** A turn keeps a derived session derived. *)
Lemma turn_step_derived (q : str) (a a' : App) :
  turn_step q a a' ->
  derived (session_state a) -> derived (session_state a').
Proof.
  intros Hstep Hd. destruct Hstep as [| | |c h reply Hb Hc Hh Hr|c reply Hb Hc Hh Hr];
    try exact Hd.
  - destruct (Hd c Hc) as (h0 & m & w & Hh0 & Hm & Hw & ->).
    rewrite Hh in Hh0. injection Hh0 as <-.
    intros c' Hc'. simpl in Hc'. injection Hc' as <-.
    exists (h ++ [{| human := q; AI := reply |}]), m, w. simpl.
    repeat split; try assumption.
    unfold rebuilt, preload. simpl. rewrite fold_left_app. reflexivity.
  - destruct (Hd c Hc) as (h0 & m & w & Hh0 & _). congruence.
Qed.

(** A turn changes neither the configuration nor, when there is a chain,
    the client it is bound to and the size of its window. *)
Lemma turn_step_binding (q : str) (a a' : App) :
  turn_step q a a' ->
  model (session_state a') = model (session_state a)
  /\ memory_length (session_state a') = memory_length (session_state a)
  /\ (forall c, conversation (session_state a) = Some (Some c) ->
                exists c', conversation (session_state a') = Some (Some c')
                           /\ llm c' = llm c
                           /\ k (memory c') = k (memory c)).
Proof.
  intros Hstep.
  destruct Hstep as [| | |c h reply Hb Hc Hh Hr|c reply Hb Hc Hh Hr]; simpl;
    repeat split; intros c0 Hc0; try (exists c0; repeat split; assumption).
  - rewrite Hc in Hc0. injection Hc0 as <-. eexists. repeat split.
  - rewrite Hc in Hc0. injection Hc0 as <-. eexists. repeat split.
Qed.

(** An invariant of single turns is an invariant of sequences of turns. *)
Lemma run_turns_invariant (I : App -> Prop) :
  (forall q a a', turn_step q a a' -> I a -> I a') ->
  forall qs a, I a -> I (snd (run_turns qs a)).
Proof.
  intros Hstep qs. induction qs as [|q qs IH]; intros a Ha.
  - exact Ha.
  - destruct (turn_step_spec q a) as (a1 & Hrun & Hs).
    simpl. rewrite (bind_ok _ _ _ Hrun). apply IH.
    apply (Hstep q a a1 Hs Ha).
Qed.

(** The context window of a derived session. *)
Lemma derived_window (s : SessionState) (c : ConversationChain)
      (h : Transcript) (w : Z) :
  derived s ->
  conversation s = Some (Some c) ->
  chat_history s = Some h ->
  memory_length s = Some w ->
  (0 < w)%Z ->
  buffer (memory c) = flat_map messages_of (most_recent (Z.to_nat w) h)
  /\ context_window c = Some (most_recent (Z.to_nat w) h).
Proof.
  intros Hd Hc Hh Hw Hpos.
  destruct (Hd c Hc) as (h0 & m & w0 & Hh0 & _ & Hw0 & ->).
  rewrite Hh in Hh0. injection Hh0 as <-.
  rewrite Hw in Hw0. injection Hw0 as <-.
  split.
  - unfold rebuilt. simpl. rewrite preload_new. unfold buffer. simpl.
    destruct (Z.ltb_spec 0 w) as [_|]; [|lia].
    apply slice_last_messages. exact Hpos.
  - unfold context_window, rebuilt. simpl. apply preload_window. exact Hpos.
Qed.

(** What a successful rebuild tells about the state it started from. *)
Lemma handle_model_change_inv (a a' : App) (x : unit) :
  handle_model_change a = (Ok x, a') ->
  exists h m w,
    chat_history (session_state a) = Some h
    /\ model (session_state a) = Some m
    /\ memory_length (session_state a) = Some w
    /\ ChatGroq_init groq_api_key m = None
    /\ a' = {| session_state :=
                 {| chat_history := Some h;
                    conversation := Some (Some (rebuilt m w h));
                    model := Some m; memory_length := Some w |};
               page := page a; network := network a |}.
Proof.
  destruct a as [[h c m w] pg net].
  unfold handle_model_change, create_conversation, ChatGroq_new, bind, attr,
    ret, raise, set_conversation, with_session. simpl.
  destruct m as [m|]; [|discriminate]. simpl.
  destruct w as [w|]; [|discriminate]. simpl.
  destruct h as [h|]; [|discriminate]. simpl.
  destruct (ChatGroq_init groq_api_key m) eqn:Hc; [discriminate|].
  simpl. intros H. inversion H; subst.
  exists h, m, w. repeat split. exact Hc.
Qed.

(** X1. A recorded turn stores and sends the text exactly as it was
    submitted: when the request obtains a reply, the transcript grows by
    the exchange made of the submitted text itself and the reply, and the
    request carried that same text; the whitespace test of line 57 trims
    nothing. *)
Theorem X1_turn_records_text_as_submitted (q : str) (a : App)
        (c : ConversationChain) (h : Transcript) (reply : str) :
  blank q = false ->
  conversation (session_state a) = Some (Some c) ->
  chat_history (session_state a) = Some h ->
  remote (length (network a)) (request_of c q) = inr reply ->
  let a' := snd (handle_user_input q a) in
  chat_history (session_state a')
  = Some (h ++ [{| human := q; AI := reply |}])
  /\ (exists req, network a' = network a ++ [(req, inr reply)]
                  /\ req_input req = q)
  /\ last (page a') PageConfig = WriteText reply.
Proof.
  intros Hb Hc Hh Hr. cbv zeta. rewrite (turn_reply q a Hb Hc Hh Hr).
  cbn [snd session_state chat_history network page].
  split; [reflexivity|]. split.
  - eexists. split; reflexivity.
  - change [PlaceholderEmpty; WriteText reply]
      with ([PlaceholderEmpty] ++ [WriteText reply]).
    rewrite !app_assoc. apply last_last.
Qed.

(** X2. A sequence of Turn Executions never changes the configuration, and
    a Conversation Session that exists stays bound to the same client and
    keeps the size of its window, whatever the remote API does. *)
Theorem X2_turns_keep_configuration (qs : list str) (a : App) :
  let a' := snd (run_turns qs a) in
  model (session_state a') = model (session_state a)
  /\ memory_length (session_state a') = memory_length (session_state a)
  /\ (forall c, conversation (session_state a) = Some (Some c) ->
                exists c', conversation (session_state a') = Some (Some c')
                           /\ llm c' = llm c
                           /\ k (memory c') = k (memory c)).
Proof.
  cbv zeta.
  apply (run_turns_invariant
           (fun a' =>
              model (session_state a') = model (session_state a)
              /\ memory_length (session_state a')
                 = memory_length (session_state a)
              /\ (forall c,
                    conversation (session_state a) = Some (Some c) ->
                    exists c',
                      conversation (session_state a') = Some (Some c')
                      /\ llm c' = llm c /\ k (memory c') = k (memory c)))).
  - intros q a1 a2 Hs (Hm & Hw & Hc).
    destruct (turn_step_binding Hs) as (Hm' & Hw' & Hc').
    split; [congruence|]. split; [congruence|].
    intros c Hc0. destruct (Hc c Hc0) as (c1 & Hc1 & Hl1 & Hk1).
    destruct (Hc' c1 Hc1) as (c2 & Hc2 & Hl2 & Hk2).
    exists c2. repeat split; congruence.
  - repeat split. intros c Hc. exists c. repeat split. exact Hc.
Qed.

(** X3. Turn Executions keep the Conversation Session derived from the
    configuration and the transcript: after any sequence of turns on such a
    state, whatever the remote API does, the chain is still the one a
    rebuild would produce, so for a positive window its context is the
    most recent [memory_length] exchanges of the transcript. *)
Theorem X3_turns_keep_session_derived (qs : list str) (a : App) :
  derived (session_state a) ->
  let s' := session_state (snd (run_turns qs a)) in
  derived s'
  /\ (forall c h w,
        conversation s' = Some (Some c) ->
        chat_history s' = Some h ->
        memory_length s' = Some w ->
        (0 < w)%Z ->
        context_window c = Some (most_recent (Z.to_nat w) h)).
Proof.
  intros Hd. cbv zeta.
  assert (Hd' : derived (session_state (snd (run_turns qs a)))).
  { apply (run_turns_invariant (fun a' => derived (session_state a'))).
    - intros q a1 a2 Hs. apply (turn_step_derived Hs).
    - exact Hd. }
  split; [exact Hd'|].
  intros c h w Hc Hh Hw Hpos.
  apply (derived_window Hd' Hc Hh Hw Hpos).
Qed.

(** X5. Rebuilding after turns changes nothing: once a rebuild has
    succeeded, after any sequence of Turn Executions a further rebuild
    returns normally and leaves the application state exactly as it is
    (the memory of the chain already is what a rebuild from the transcript
    gives). *)
Theorem X5_rebuild_after_turns_is_noop (a a1 : App) (qs : list str) :
  handle_model_change a = (Ok tt, a1) ->
  let a2 := snd (run_turns qs a1) in
  handle_model_change a2 = (Ok tt, a2).
Proof.
  intros Hrun. cbv zeta.
  destruct (handle_model_change_inv a Hrun)
    as (h & m & w & _ & _ & _ & Hinit & ->).
  set (a1 := {| session_state := _; page := _; network := _ |}).
  assert (Hd1 : derived (session_state a1)).
  { intros c Hc. simpl in Hc. injection Hc as <-.
    exists h, m, w. repeat split. }
  pose proof (run_turns_invariant
                (fun a' => derived (session_state a'))
                (fun q x y Hs => turn_step_derived Hs) qs a1 Hd1) as Hd2.
  assert (Hk : model (session_state (snd (run_turns qs a1))) = Some m
               /\ built (session_state (snd (run_turns qs a1)))).
  { apply (run_turns_invariant
             (fun a' => model (session_state a') = Some m
                        /\ built (session_state a'))).
    - intros q x y Hs (Hmx & c0 & Hc0).
      destruct (turn_step_binding Hs) as (Hmy & _ & Hcy).
      split; [congruence|].
      destruct (Hcy c0 Hc0) as (c' & Hc' & _). exists c'. exact Hc'.
    - split; [reflexivity|]. eexists. reflexivity. }
  destruct Hk as (Hm2 & c2 & Hconv2).
  destruct (Hd2 c2 Hconv2) as (h2 & m2 & w2 & Hh2 & Hm2' & Hw2' & ->).
  assert (Hm : m2 = m) by congruence. subst m2.
  rewrite (handle_model_change_ok _ Hh2 Hm2' Hw2' Hinit).
  f_equal. destruct (snd (run_turns qs a1)) as [[h' c' m' w'] pg net].
  simpl in *. congruence.
Qed.

End TurnInvariants.

(* ================================================================= *)
(** ** Failed rebuilds *)

Section FailedRebuilds.

Context {E : Externals}.

(** The three ways [reset_conversation] can go wrong all happen after the
    transcript was emptied and before the session is replaced. *)
Lemma reset_conversation_raise (a a' : App) (e : exn) :
  reset_conversation a = (Raise e, a') ->
  a' = {| session_state :=
            {| chat_history := Some [];
               conversation := conversation (session_state a);
               model := model (session_state a);
               memory_length := memory_length (session_state a) |};
          page := page a; network := network a |}
  /\ (model (session_state a) = None
      \/ memory_length (session_state a) = None
      \/ exists m, model (session_state a) = Some m
                   /\ ChatGroq_init groq_api_key m = Some e).
Proof.
  destruct a as [[h c m w] pg net].
  unfold reset_conversation, create_conversation, ChatGroq_new, bind, attr,
    ret, raise, set_chat_history, set_conversation, render, with_session.
  simpl.
  destruct m as [m|]; simpl.
  2: { intros H. inversion H; subst. split; [reflexivity | left; reflexivity]. }
  destruct w as [w|]; simpl.
  2: { intros H. inversion H; subst.
       split; [reflexivity | right; left; reflexivity]. }
  destruct (ChatGroq_init groq_api_key m) eqn:Hc; simpl; [|discriminate].
  intros H. inversion H; subst.
  split; [reflexivity|]. right. right. exists m. split; [reflexivity|exact Hc].
Qed.

(** X6. A reset that fails is a half reset: whenever [reset_conversation]
    raises (a configuration key is missing, or the client constructor
    raises), the transcript has been emptied but the previous Conversation
    Session is still in place with its memory, the configuration, the page
    and the network log are untouched; if that session remembers anything,
    it no longer is the session derived from the (now empty) transcript. *)
Theorem X6_failed_reset_keeps_old_session (a a' : App) (e : exn) :
  reset_conversation a = (Raise e, a') ->
  chat_history (session_state a') = Some []
  /\ conversation (session_state a') = conversation (session_state a)
  /\ model (session_state a') = model (session_state a)
  /\ memory_length (session_state a') = memory_length (session_state a)
  /\ page a' = page a
  /\ network a' = network a
  /\ (forall c, conversation (session_state a) = Some (Some c) ->
                chat_memory (memory c) <> [] ->
                ~ derived (session_state a')).
Proof.
  intros Hrun. destruct (reset_conversation_raise a Hrun) as (-> & _).
  simpl. repeat split.
  intros c Hc Hmem Hd.
  destruct (Hd c Hc) as (h & m & w & Hh & _ & _ & ->).
  simpl in Hh. injection Hh as <-.
  apply Hmem. unfold rebuilt. simpl. reflexivity.
Qed.

(** X7. A model change whose rebuild fails is a half change: when the
    selected model differs from the stored one and the client constructor
    raises for it, the sidebar raises that exception after storing the new
    model, leaving transcript, memory window and the previous Conversation
    Session as they were and making no request; a session bound to the old
    model then no longer matches the stored configuration. *)
Theorem X7_failed_model_change_keeps_old_session
        (w : widgets) (a : App) (h : Transcript)
        (c0 : option (option ConversationChain)) (m0 : str) (w0 : Z)
        (i : nat) (e : exn) :
  session_state a
  = {| chat_history := Some h; conversation := c0;
       model := Some m0; memory_length := Some w0 |} ->
  index_from 0 m0 SUPPORTED_MODELS = Some i ->
  selected_model w <> m0 ->
  ChatGroq_init groq_api_key (selected_model w) = Some e ->
  sidebar w a
  = (Raise e,
     {| session_state :=
          {| chat_history := Some h; conversation := c0;
             model := Some (selected_model w); memory_length := Some w0 |};
        page := page a ++ [SidebarTitle; Subheader "Model Selection";
                           Selectbox i];
        network := network a |})
  /\ (forall c, c0 = Some (Some c) ->
                model_name (llm c) = m0 ->
                ~ derived (session_state (snd (sidebar w a)))).
Proof.
  intros Hs Hi Hd Hc.
  assert (Hrun : sidebar w a
                 = (Raise e,
                    {| session_state :=
                         {| chat_history := Some h; conversation := c0;
                            model := Some (selected_model w);
                            memory_length := Some w0 |};
                       page := page a ++ [SidebarTitle;
                                          Subheader "Model Selection";
                                          Selectbox i];
                       network := network a |})).
  { destruct a as [s pg net]. simpl in Hs. subst s.
    destruct w as [m1 w1 sub]. cbn [selected_model slider_value] in *.
    unfold sidebar, index. cbn [selected_model slider_value].
    unfold bind at 1 2; unfold render at 1 2; cbn [session_state].
    unfold bind at 1; unfold attr at 1; cbn [session_state model].
    rewrite Hi.
    assert (Hneq : eqb m1 m0 = false).
    { destruct (eqb m1 m0) eqn:Heq; [|reflexivity].
      apply eqb_eq in Heq. contradiction. }
    unfold handle_model_change, create_conversation, ChatGroq_new, bind,
      attr, render, ret, raise, set_model, set_conversation, with_session.
    simpl. rewrite Hneq. simpl. rewrite Hc. simpl.
    rewrite <- !app_assoc. reflexivity. }
  split; [exact Hrun|].
  intros c -> Hm Hder. rewrite Hrun in Hder. simpl in Hder.
  destruct (Hder c eq_refl) as (h' & m' & w' & _ & Hm' & _ & ->).
  simpl in Hm', Hm. injection Hm' as <-. apply Hd. exact Hm.
Qed.

(** X8. A stored model that is not in the supported list stops the run at
    the selection widget: [main] raises [ValueError] (the [index] call of
    line 121) right after initialisation, before the current model is
    shown, before any Conversation Session is built and without any
    request; the stored model is left as it is. *)
Theorem X8_unsupported_stored_model_stops_run
        (w : widgets) (a : App) (m0 : str) :
  model (session_state a) = Some m0 ->
  index_from 0 m0 SUPPORTED_MODELS = None ->
  exists e,
    exn_kind e = ValueError
    /\ main w a
       = (Raise e,
          {| session_state :=
               {| chat_history :=
                    default_fill [] (chat_history (session_state a));
                  conversation :=
                    default_fill None (conversation (session_state a));
                  model := Some m0;
                  memory_length :=
                    default_fill 5%Z (memory_length (session_state a)) |};
             page := page a ++ [PageConfig; SidebarTitle;
                                Subheader "Model Selection"];
             network := network a |}).
Proof.
  intros Hm Hi.
  destruct (sidebar_unsupported_stored_model w
              {| session_state :=
                   {| chat_history :=
                        default_fill [] (chat_history (session_state a));
                      conversation :=
                        default_fill None (conversation (session_state a));
                      model := Some m0;
                      memory_length :=
                        default_fill 5%Z (memory_length (session_state a)) |};
                 page := page a ++ [PageConfig];
                 network := network a |} (m0 := m0) eq_refl Hi)
    as (e & He & Hrun).
  exists e. split; [exact He|].
  unfold main.
  erewrite bind_ok by reflexivity.
  erewrite bind_ok.
  2: { rewrite initialize_session_state_spec. simpl. rewrite Hm. simpl.
       reflexivity. }
  unfold bind at 1. rewrite Hrun. simpl. rewrite <- app_assoc. reflexivity.
Qed.

End FailedRebuilds.

(* ================================================================= *)
(** ** Invariants of a script run *)

Lemma hoare_bind {A B} (P : App -> Prop) (c : M A) (R : A -> App -> Prop)
      (f : A -> M B) (Q : B -> App -> Prop) :
  hoare P c R -> (forall x, hoare (R x) (f x) Q) -> hoare P (bind c f) Q.
Proof.
  intros Hc Hf a y a' HP Hrun. unfold bind in Hrun.
  destruct (c a) as [[x|e] a1] eqn:Hca; [|discriminate].
  apply (Hf x a1 y a' (Hc a x a1 HP Hca) Hrun).
Qed.

Lemma hoare_weaken {A} (P P' : App -> Prop) (c : M A)
      (Q Q' : A -> App -> Prop) :
  (forall a, P' a -> P a) -> hoare P c Q ->
  (forall x a, Q x a -> Q' x a) -> hoare P' c Q'.
Proof.
  intros HP Hc HQ a x a' HP' Hrun. apply HQ. apply (Hc a x a'); auto.
Qed.

Section Invariants.

Variable I : SessionState -> Prop.

Lemma invariant_bind {A B} (c : M A) (f : A -> M B) :
  invariant I c -> (forall x, invariant I (f x)) -> invariant I (bind c f).
Proof. intros Hc Hf. eapply hoare_bind; [exact Hc | exact Hf]. Qed.

Lemma establishes_invariant {A} (c : M A) :
  establishes I c -> invariant I c.
Proof. intros Hc a x a' _ Hrun. apply (Hc a x a' Logic.I Hrun). Qed.

Lemma establishes_bind_r {A B} (c : M A) (f : A -> M B) :
  (forall x, establishes I (f x)) -> establishes I (bind c f).
Proof.
  intros Hf. eapply hoare_bind with (R := fun _ _ => True).
  - intros a x a' _ _. exact Logic.I.
  - exact Hf.
Qed.

Lemma establishes_bind_l {A B} (c : M A) (f : A -> M B) :
  establishes I c -> (forall x, invariant I (f x)) ->
  establishes I (bind c f).
Proof. intros Hc Hf. eapply hoare_bind; [exact Hc | exact Hf]. Qed.

(** A computation that leaves the session state as it was keeps every
    property of it. *)
Lemma invariant_pure {A} (c : M A) :
  (forall a x a', c a = (Ok x, a') -> session_state a' = session_state a) ->
  invariant I c.
Proof.
  intros Hc a x a' HI Hrun. rewrite (Hc a x a' Hrun). exact HI.
Qed.

Lemma invariant_ret {A} (x : A) : invariant I (ret x).
Proof. apply invariant_pure. intros a y a' H. inversion H. reflexivity. Qed.

Lemma invariant_render (e : ui_event) : invariant I (render e).
Proof. apply invariant_pure. intros a y a' H. inversion H. reflexivity. Qed.

Lemma invariant_attr {A} (name : string) (field : SessionState -> option A) :
  invariant I (attr name field).
Proof.
  apply invariant_pure. intros a y a' H. unfold attr in H.
  destruct (field (session_state a)); inversion H. reflexivity.
Qed.

Lemma invariant_index (l : list str) (x : str) : invariant I (index l x).
Proof.
  apply invariant_pure. intros a y a' H. unfold index in H.
  destruct (index_from 0 x l); inversion H. reflexivity.
Qed.

Lemma invariant_if {A} (b : bool) (c d : M A) :
  invariant I c -> invariant I d -> invariant I (if b then c else d).
Proof. destruct b; auto. Qed.

Lemma invariant_for_each {A} (l : list A) (body : A -> M unit) :
  (forall x, invariant I (body x)) -> invariant I (for_each l body).
Proof.
  intros Hb. induction l as [|x l IH]; simpl.
  - apply invariant_ret.
  - apply invariant_bind; [apply Hb | intros _; exact IH].
Qed.

End Invariants.

Section RunInvariants.

Context {E : Externals}.

Lemma invariant_turn (I : SessionState -> Prop) (q : str) :
  (forall a a', turn_step q a a' ->
                I (session_state a) -> I (session_state a')) ->
  invariant I (handle_user_input q).
Proof.
  intros Hstep a x a' HI Hrun.
  destruct (turn_step_spec q a) as (a1 & Hrun1 & Hs).
  rewrite Hrun1 in Hrun. inversion Hrun; subst.
  apply (Hstep a a' Hs HI).
Qed.

Lemma establishes_derived_rebuild : establishes derived handle_model_change.
Proof.
  intros a x a' _ Hrun.
  destruct (handle_model_change_inv a Hrun)
    as (h & m & w & _ & _ & _ & _ & ->).
  intros c Hc. simpl in Hc. injection Hc as <-.
  exists h, m, w. repeat split.
Qed.

Lemma establishes_built_rebuild : establishes built handle_model_change.
Proof.
  intros a x a' _ Hrun.
  destruct (handle_model_change_inv a Hrun)
    as (h & m & w & _ & _ & _ & _ & ->).
  eexists. reflexivity.
Qed.

Lemma invariant_present_rebuild : invariant present handle_model_change.
Proof.
  intros a x a' _ Hrun.
  destruct (handle_model_change_inv a Hrun)
    as (h & m & w & _ & _ & _ & _ & ->).
  simpl. repeat split; discriminate.
Qed.

Lemma invariant_derived_initialize :
  invariant derived initialize_session_state.
Proof.
  intros a x a' Hd Hrun. rewrite initialize_session_state_spec in Hrun.
  inversion Hrun; subst. clear Hrun. simpl.
  intros c Hc. simpl in Hc.
  assert (Hc0 : conversation (session_state a) = Some (Some c)).
  { destruct (conversation (session_state a)); simpl in Hc;
      [exact Hc | discriminate]. }
  destruct (Hd c Hc0) as (h & m & w & Hh & Hm & Hw & ->).
  exists h, m, w. simpl. rewrite Hh, Hm, Hw. repeat split.
Qed.

Lemma establishes_present_initialize :
  establishes present initialize_session_state.
Proof.
  intros a x a' _ Hrun. rewrite initialize_session_state_spec in Hrun.
  inversion Hrun; subst. clear Hrun. simpl.
  repeat split; simpl;
    match goal with
    | |- default_fill _ ?o <> None => destruct o; discriminate
    end.
Qed.

Lemma invariant_present_set_model (v : str) : invariant present (set_model v).
Proof.
  intros a x a' (H1 & H2 & H3 & H4) Hrun. inversion Hrun; subst. simpl.
  repeat split; try assumption. discriminate.
Qed.

Lemma invariant_present_set_memory_length (v : Z) :
  invariant present (set_memory_length v).
Proof.
  intros a x a' (H1 & H2 & H3 & H4) Hrun. inversion Hrun; subst. simpl.
  repeat split; try assumption. discriminate.
Qed.

(** The sidebar keeps a property that every successful rebuild
    re-establishes. *)
Lemma invariant_sidebar (I : SessionState -> Prop) (w : widgets) :
  establishes I handle_model_change -> invariant I (sidebar w).
Proof.
  intros Hre. unfold sidebar.
  repeat first
    [ apply invariant_render
    | apply invariant_attr
    | apply invariant_index
    | apply invariant_ret
    | apply invariant_if
    | apply establishes_invariant; apply establishes_bind_r; intros; exact Hre
    | apply invariant_bind; [|intros] ].
Qed.

Lemma invariant_present_sidebar (w : widgets) : invariant present (sidebar w).
Proof.
  unfold sidebar.
  repeat first
    [ apply invariant_render
    | apply invariant_attr
    | apply invariant_index
    | apply invariant_ret
    | apply invariant_if
    | apply invariant_present_rebuild
    | apply invariant_present_set_model
    | apply invariant_present_set_memory_length
    | apply invariant_bind; [|intros] ].
Qed.

Lemma turn_step_present (q : str) (a a' : App) :
  turn_step q a a' -> present (session_state a) -> present (session_state a').
Proof.
  intros Hs (H1 & H2 & H3 & H4).
  destruct Hs as [| | |c h reply Hb Hc Hh Hr|c reply Hb Hc Hh Hr];
    simpl; try (repeat split; assumption).
  - repeat split; try assumption; discriminate.
  - congruence.
Qed.

Lemma turn_step_built (q : str) (a a' : App) :
  turn_step q a a' -> built (session_state a) -> built (session_state a').
Proof.
  intros Hs (c0 & Hc0).
  destruct (turn_step_binding Hs) as (_ & _ & Hc).
  destruct (Hc c0 Hc0) as (c' & Hc' & _). exists c'. exact Hc'.
Qed.

(** The part of [main] after the lazy construction keeps every property
    that turns keep. *)
Lemma invariant_main_tail (I : SessionState -> Prop) (w : widgets) :
  (forall q a a', turn_step q a a' ->
                  I (session_state a) -> I (session_state a')) ->
  invariant I
    (h <- attr "chat_history" chat_history ;;
     for_each h (fun message =>
                   render (ChatMessage user (human message)) ;;
                   render (ChatMessage assistant (AI message))) ;;
     if negb (credential_available groq_api_key)
     then render (Error missing_key_text)
     else
       render ChatInput ;;
       match submitted w with
       | Some user_question =>
           if truthy user_question then handle_user_input user_question
           else ret tt
       | None => ret tt
       end).
Proof.
  intros Hturn.
  apply invariant_bind; [apply invariant_attr | intros h].
  apply invariant_bind.
  { apply invariant_for_each. intros t.
    apply invariant_bind; [|intros]; apply invariant_render. }
  intros _. apply invariant_if; [apply invariant_render|].
  apply invariant_bind; [apply invariant_render | intros _].
  destruct (submitted w) as [q|]; [|apply invariant_ret].
  apply invariant_if; [|apply invariant_ret].
  apply invariant_turn. apply Hturn.
Qed.

(** A successful run of [main] keeps a property that initialisation and
    turns keep and that every successful rebuild re-establishes. *)
Lemma invariant_main (I : SessionState -> Prop) (w : widgets) :
  invariant I initialize_session_state ->
  establishes I handle_model_change ->
  (forall q a a', turn_step q a a' ->
                  I (session_state a) -> I (session_state a')) ->
  invariant I (main w).
Proof.
  intros Hinit Hre Hturn. unfold main.
  apply invariant_bind; [apply invariant_render | intros _].
  apply invariant_bind; [exact Hinit | intros _].
  apply invariant_bind; [apply (invariant_sidebar w Hre) | intros _].
  apply invariant_bind; [apply invariant_render | intros _].
  apply invariant_bind; [apply invariant_attr | intros m].
  apply invariant_bind; [apply invariant_render | intros _].
  apply invariant_bind; [apply invariant_attr | intros c].
  apply invariant_bind.
  { destruct c as [c|]; [apply invariant_ret|].
    apply establishes_invariant. exact Hre. }
  intros _. apply (invariant_main_tail I w Hturn).
Qed.

Lemma hoare_attr {A} (name : string) (field : SessionState -> option A) :
  hoare (fun _ => True) (attr name field)
        (fun v a => field (session_state a) = Some v).
Proof.
  intros a v a' _ Hrun. unfold attr in Hrun.
  destruct (field (session_state a)) eqn:Hf; inversion Hrun; subst.
  exact Hf.
Qed.

Lemma hoare_any {A} (c : M A) : hoare (fun _ => True) c (fun _ _ => True).
Proof. intros a x a' _ _. exact Logic.I. Qed.

Lemma establishes_present_main (w : widgets) : establishes present (main w).
Proof.
  unfold main.
  apply establishes_bind_r. intros _.
  apply establishes_bind_l; [apply establishes_present_initialize | intros _].
  apply invariant_bind; [apply invariant_present_sidebar | intros _].
  apply invariant_bind; [apply invariant_render | intros _].
  apply invariant_bind; [apply invariant_attr | intros m].
  apply invariant_bind; [apply invariant_render | intros _].
  apply invariant_bind; [apply invariant_attr | intros c].
  apply invariant_bind.
  { destruct c as [c|]; [apply invariant_ret|].
    apply invariant_present_rebuild. }
  intros _. apply invariant_main_tail. apply turn_step_present.
Qed.

Lemma establishes_built_main (w : widgets) : establishes built (main w).
Proof.
  unfold main.
  do 6 (eapply hoare_bind; [apply hoare_any | intros ?]).
  eapply hoare_bind; [apply hoare_attr | intros c].
  eapply hoare_bind with (R := fun _ a => built (session_state a)).
  - destruct c as [c|].
    + intros a0 y a1 Hc Hrun. inversion Hrun; subst. exists c. exact Hc.
    + eapply hoare_weaken;
        [| apply establishes_built_rebuild | intros ? ? H; exact H].
      intros ? _. exact Logic.I.
  - intros _. apply (invariant_main_tail built w). apply turn_step_built.
Qed.

(** X9. A successful run of the script keeps the Conversation Session
    derived from the configuration and the transcript: whatever the widgets
    return and whatever the remote API does, if the session was derived (or
    not built) before [main] and [main] returns normally, the chain is the
    one a rebuild would produce, and for a positive window its context is
    the most recent [memory_length] exchanges of the transcript. *)
Theorem X9_run_keeps_session_derived (w : widgets) (a a' : App) :
  derived (session_state a) ->
  main w a = (Ok tt, a') ->
  derived (session_state a')
  /\ (forall c h n,
        conversation (session_state a') = Some (Some c) ->
        chat_history (session_state a') = Some h ->
        memory_length (session_state a') = Some n ->
        (0 < n)%Z ->
        context_window c = Some (most_recent (Z.to_nat n) h)).
Proof.
  intros Hd Hrun.
  assert (Hd' : derived (session_state a')).
  { pose proof (@invariant_main derived w invariant_derived_initialize
                  establishes_derived_rebuild
                  (fun q x y Hs => turn_step_derived Hs)) as Hinv.
    unfold invariant, hoare in Hinv. apply (Hinv a tt a' Hd Hrun). }
  split; [exact Hd'|].
  intros c h n Hc Hh Hn Hpos.
  apply (derived_window Hd' Hc Hh Hn Hpos).
Qed.

(** X10. Every successful run of the script ends READY: whatever the state
    [main] starts from (even a session without any key), if it returns
    normally then all four session keys exist and a Conversation Session is
    built. *)
Theorem X10_successful_run_ends_ready (w : widgets) (a a' : App) :
  main w a = (Ok tt, a') ->
  exists h c m n,
    session_state a'
    = {| chat_history := Some h; conversation := Some (Some c);
         model := Some m; memory_length := Some n |}.
Proof.
  intros Hrun.
  pose proof (establishes_present_main w) as Hp.
  pose proof (establishes_built_main w) as Hb.
  unfold establishes, hoare in Hp, Hb.
  destruct (Hp a tt a' Logic.I Hrun) as (Hh & _ & Hm & Hn).
  destruct (Hb a tt a' Logic.I Hrun) as (c & Hc).
  destruct (session_state a') as [h c0 m n]. simpl in *. subst c0.
  destruct h as [h|]; [|contradiction].
  destruct m as [m|]; [|contradiction].
  destruct n as [n|]; [|contradiction].
  exists h, c, m, n. reflexivity.
Qed.

End RunInvariants.

(* ================================================================= *)
(** ** What a script run adds to the log of calls and to the page *)

Section Frames.

Context {E : Externals}.

(** [R] relates the states of the steps before the chat input, [T] the
    states of a whole run. *)
Variables R T : App -> App -> Prop.

Hypothesis R_refl : forall a, R a a.
Hypothesis R_trans : forall a b c, R a b -> R b c -> R a c.
Hypothesis R_T : forall a b, R a b -> T a b.
Hypothesis RT_trans : forall a b c, R a b -> T b c -> T a c.
Hypothesis R_session : forall a f, R a (with_session f a).
Hypothesis R_render :
  forall e a, e <> ChatInput ->
              R a {| session_state := session_state a;
                     page := page a ++ [e]; network := network a |}.

Lemma steps_ret {A} (x : A) : steps R (ret x).
Proof. intros a. apply R_refl. Qed.

Lemma steps_raise {A} (e : exn) : steps R (@raise A e).
Proof. intros a. apply R_refl. Qed.

Lemma steps_attr {A} (name : string) (field : SessionState -> option A) :
  steps R (attr name field).
Proof.
  intros a. unfold attr. destruct (field (session_state a)); apply R_refl.
Qed.

Lemma steps_has {A} (field : SessionState -> option A) : steps R (has field).
Proof. intros a. apply R_refl. Qed.

Lemma steps_index (l : list str) (x : str) : steps R (index l x).
Proof.
  intros a. unfold index. destruct (index_from 0 x l); apply R_refl.
Qed.

Lemma steps_render (e : ui_event) : e <> ChatInput -> steps R (render e).
Proof. intros He a. apply R_render. exact He. Qed.

Lemma steps_set_chat_history (v : Transcript) : steps R (set_chat_history v).
Proof. intros a. apply R_session. Qed.

Lemma steps_set_conversation (v : option ConversationChain) :
  steps R (set_conversation v).
Proof. intros a. apply R_session. Qed.

Lemma steps_set_model (v : str) : steps R (set_model v).
Proof. intros a. apply R_session. Qed.

Lemma steps_set_memory_length (v : Z) : steps R (set_memory_length v).
Proof. intros a. apply R_session. Qed.

Lemma steps_bind {A B} (c : M A) (f : A -> M B) :
  steps R c -> (forall x, steps R (f x)) -> steps R (bind c f).
Proof.
  intros Hc Hf a. unfold bind. specialize (Hc a).
  destruct (c a) as [[x|e] a1]; simpl in *.
  - apply (R_trans Hc (Hf x a1)).
  - exact Hc.
Qed.

Lemma steps_bind_T {A B} (c : M A) (f : A -> M B) :
  steps R c -> (forall x, steps T (f x)) -> steps T (bind c f).
Proof.
  intros Hc Hf a. unfold bind. specialize (Hc a).
  destruct (c a) as [[x|e] a1]; simpl in *.
  - apply (RT_trans Hc (Hf x a1)).
  - apply R_T. exact Hc.
Qed.

Lemma steps_if {A} (b : bool) (c d : M A) :
  steps R c -> steps R d -> steps R (if b then c else d).
Proof. destruct b; auto. Qed.

Lemma steps_create_conversation (m : str) (w : Z) :
  steps R (create_conversation m w).
Proof. intros a. rewrite create_conversation_pure. apply R_refl. Qed.

Ltac step :=
  repeat first
    [ apply steps_ret
    | apply steps_attr
    | apply steps_has
    | apply steps_index
    | apply steps_create_conversation
    | apply steps_set_chat_history
    | apply steps_set_conversation
    | apply steps_set_model
    | apply steps_set_memory_length
    | apply steps_render; discriminate
    | apply steps_if
    | apply steps_bind; [|intros] ].

Lemma steps_handle_model_change : steps R handle_model_change.
Proof. unfold handle_model_change. step. Qed.

Lemma steps_initialize_session_state : steps R initialize_session_state.
Proof. unfold initialize_session_state. step. Qed.

Lemma steps_sidebar (w : widgets) : steps R (sidebar w).
Proof.
  unfold sidebar.
  repeat first
    [ apply steps_handle_model_change
    | apply steps_ret
    | apply steps_attr
    | apply steps_index
    | apply steps_set_model
    | apply steps_set_memory_length
    | apply steps_render; discriminate
    | apply steps_if
    | apply steps_bind; [|intros] ].
Qed.

Lemma steps_for_each {A} (l : list A) (body : A -> M unit) :
  (forall x, steps R (body x)) -> steps R (for_each l body).
Proof.
  intros Hb. induction l as [|x l IH]; simpl.
  - apply steps_ret.
  - apply steps_bind; [apply Hb | intros _; exact IH].
Qed.

(** A run of [main] is a run of steps before the chat input followed by
    the branch on the credential. *)
Lemma steps_main (w : widgets) :
  steps T
    (if negb (credential_available groq_api_key)
     then render (Error missing_key_text)
     else
       render ChatInput ;;
       match submitted w with
       | Some user_question =>
           if truthy user_question then handle_user_input user_question
           else ret tt
       | None => ret tt
       end) ->
  steps T (main w).
Proof.
  intros Hlast. unfold main.
  apply steps_bind_T; [apply steps_render; discriminate | intros _].
  apply steps_bind_T; [apply steps_initialize_session_state | intros _].
  apply steps_bind_T; [apply steps_sidebar | intros _].
  apply steps_bind_T; [apply steps_render; discriminate | intros _].
  apply steps_bind_T; [apply steps_attr | intros m].
  apply steps_bind_T; [apply steps_render; discriminate | intros _].
  apply steps_bind_T; [apply steps_attr | intros c].
  apply steps_bind_T.
  { destruct c as [c|]; [apply steps_ret|]. apply steps_handle_model_change. }
  intros _.
  apply steps_bind_T; [apply steps_attr | intros h].
  apply steps_bind_T; [|intros _; exact Hlast].
  apply steps_for_each. intros t.
  apply steps_bind; [|intros _]; apply steps_render; discriminate.
Qed.

End Frames.

Lemma invocations_refl (n : nat) (a : App) : invocations_at_most n a a.
Proof. exists []. rewrite app_nil_r. split; [reflexivity | simpl; lia]. Qed.

Lemma invocations_none (n : nat) (a b : App) :
  network b = network a -> invocations_at_most n a b.
Proof.
  intros H. exists []. rewrite app_nil_r. split; [exact H | simpl; lia].
Qed.

Lemma invocations_trans (n m : nat) (a b c : App) :
  invocations_at_most n a b -> invocations_at_most m b c ->
  invocations_at_most (n + m) a c.
Proof.
  intros (c1 & H1 & L1) (c2 & H2 & L2). exists (c1 ++ c2). split.
  - rewrite H2, H1, app_assoc. reflexivity.
  - rewrite length_app. lia.
Qed.

Lemma invocations_weaken (n m : nat) (a b : App) :
  n <= m -> invocations_at_most n a b -> invocations_at_most m a b.
Proof. intros Hnm (c & H & L). exists c. split; [exact H | lia]. Qed.

Lemma page_adds_refl (P : ui_event -> Prop) (a : App) : page_adds P a a.
Proof. exists []. rewrite app_nil_r. split; [reflexivity | constructor]. Qed.

Lemma page_adds_trans (P : ui_event -> Prop) (a b c : App) :
  page_adds P a b -> page_adds P b c -> page_adds P a c.
Proof.
  intros (e1 & H1 & F1) (e2 & H2 & F2). exists (e1 ++ e2). split.
  - rewrite H2, H1, app_assoc. reflexivity.
  - apply Forall_app. split; assumption.
Qed.

Section RunEffects.

Context {E : Externals}.

(** A Turn Execution calls [conversation.invoke] at most once. *)
Lemma turn_invocations (q : str) :
  steps (invocations_at_most 1) (handle_user_input q).
Proof.
  intros a. destruct (turn_step_spec q a) as (a' & Hrun & Hs).
  rewrite Hrun. simpl.
  destruct Hs; simpl;
    first [ exists []; rewrite app_nil_r; split; [reflexivity | simpl; lia]
          | eexists; split; [reflexivity | simpl; lia] ].
Qed.

(** The steps of [main] before the chat input never call
    [conversation.invoke]. *)
Lemma main_invocations (n : nat) (w : widgets) :
  steps (invocations_at_most n)
    (if negb (credential_available groq_api_key)
     then render (Error missing_key_text)
     else
       render ChatInput ;;
       match submitted w with
       | Some user_question =>
           if truthy user_question then handle_user_input user_question
           else ret tt
       | None => ret tt
       end) ->
  steps (invocations_at_most n) (main w).
Proof.
  apply (@steps_main E (invocations_at_most 0) (invocations_at_most n)).
  - apply invocations_refl.
  - intros a b c H1 H2. apply (invocations_trans H1 H2).
  - intros a b H. apply (invocations_weaken (n := 0)); [lia | exact H].
  - intros a b c H1 H2. apply (invocations_trans H1 H2).
  - intros a f. exists []. simpl. rewrite app_nil_r.
    split; [reflexivity | simpl; lia].
  - intros e a _. exists []. simpl. rewrite app_nil_r.
    split; [reflexivity | simpl; lia].
Qed.

(** X11. A run of the script calls [conversation.invoke] (line 70) at most
    once, whatever the state, the widgets and the remote API (and also when
    the run raises); and it does not call it at all when the credential is
    missing, when nothing was submitted, or when the submitted text is
    empty or blank.  The network log gains one entry per call; what the
    client does over the wire within one call is not counted. *)
Theorem X11_run_invokes_chain_at_most_once (w : widgets) (a : App) :
  invocations_at_most 1 a (snd (main w a))
  /\ (credential_available groq_api_key = false
      \/ submitted w = None
      \/ (exists q, submitted w = Some q /\ blank q = true) ->
      network (snd (main w a)) = network a).
Proof.
  split.
  - apply main_invocations. clear a. intros a.
    destruct (credential_available groq_api_key); simpl.
    + unfold bind, render. simpl.
      destruct (submitted w) as [q|].
      * destruct (truthy q).
        -- destruct (turn_invocations q
                       {| session_state := session_state a;
                          page := page a ++ [ChatInput];
                          network := network a |}) as (c & Hc & Lc).
           exists c. split; [exact Hc | exact Lc].
        -- apply invocations_none. reflexivity.
      * apply invocations_none. reflexivity.
    + apply invocations_none. reflexivity.
  - intros Hcond.
    assert (H0 : invocations_at_most 0 a (snd (main w a))).
    { apply main_invocations. clear a. intros a.
      destruct (credential_available groq_api_key) eqn:Hk; simpl;
        [|apply invocations_none; reflexivity].
      unfold bind, render. simpl.
      destruct Hcond as [Hcond|[Hcond|(q & Hq & Hb)]].
      - discriminate.
      - rewrite Hcond. apply invocations_none. reflexivity.
      - rewrite Hq. destruct (truthy q); [|apply invocations_none; reflexivity].
        rewrite (turn_blank q _ Hb). apply invocations_none. reflexivity. }
    destruct H0 as (c & Hc & Lc).
    destruct c; [|simpl in Lc; lia]. rewrite Hc, app_nil_r. reflexivity.
Qed.

(** X12. Without a credential the chat input is never offered: when the
    credential is missing, whatever the state and the widgets, a run of the
    script only adds events to the page, and none of them is the chat
    input (also when the run raises). *)
Theorem X12_no_chat_input_without_credential (w : widgets) (a : App) :
  credential_available groq_api_key = false ->
  exists events,
    page (snd (main w a)) = page a ++ events
    /\ ~ In ChatInput events.
Proof.
  intros Hk.
  assert (H : page_adds (fun e => e <> ChatInput) a (snd (main w a))).
  { apply (@steps_main E (page_adds (fun e => e <> ChatInput))
             (page_adds (fun e => e <> ChatInput))).
    - apply page_adds_refl.
    - intros x y z. apply page_adds_trans.
    - auto.
    - intros x y z. apply page_adds_trans.
    - intros x f. exists []. simpl. rewrite app_nil_r.
      split; [reflexivity | constructor].
    - intros e x He. exists [e]. split; [reflexivity|].
      constructor; [exact He | constructor].
    - rewrite Hk. simpl. intros x. exists [Error missing_key_text].
      split; [reflexivity|]. constructor; [discriminate | constructor]. }
  destruct H as (events & Hp & Hall). exists events. split; [exact Hp|].
  intros Hin. rewrite Forall_forall in Hall. apply (Hall ChatInput Hin).
  reflexivity.
Qed.

End RunEffects.

(* ================================================================= *)
(** ** Reruns *)

Section Reruns.

Context {E : Externals}.

(** X13. A rerun changes nothing: on a session that is built, with a
    supported stored model, when the widgets return the stored values and
    nothing is submitted, [main] returns normally, rebuilds nothing and
    leaves the session state (transcript, Conversation Session and its
    memory, configuration) and the network log exactly as they were,
    whether or not a credential is present. *)
Theorem X13_idle_rerun_changes_nothing
        (w : widgets) (a : App) (h : Transcript) (c : ConversationChain)
        (m : str) (n : Z) (i : nat) :
  session_state a
  = {| chat_history := Some h; conversation := Some (Some c);
       model := Some m; memory_length := Some n |} ->
  index_from 0 m SUPPORTED_MODELS = Some i ->
  selected_model w = m ->
  slider_value w = n ->
  submitted w = None ->
  exists a',
    main w a = (Ok tt, a')
    /\ session_state a' = session_state a
    /\ network a' = network a.
Proof.
  intros Hs Hi Hm Hn Hsub. destruct a as [s pg net]. simpl in Hs. subst s.
  unfold main.
  erewrite bind_ok by reflexivity.
  erewrite bind_ok by apply initialize_session_state_spec.
  erewrite bind_ok
    by (eapply sidebar_idle;
        [rewrite Hm, Hn; reflexivity | rewrite Hm; exact Hi
         | exact Hm | exact Hn]).
  erewrite bind_ok by reflexivity.
  erewrite bind_ok by reflexivity.
  erewrite bind_ok by reflexivity.
  erewrite bind_ok by reflexivity.
  erewrite bind_ok by reflexivity.
  erewrite bind_ok by reflexivity.
  erewrite bind_ok by apply for_each_history.
  rewrite Hsub.
  destruct (credential_available groq_api_key);
    eexists; (split; [reflexivity|]); split; reflexivity.
Qed.

End Reruns.

(* ================================================================= *)
(** ** Further instances on sample data *)

(** A sample session whose chain holds exactly its transcript is derived. *)
Lemma sample_derived (h : Transcript) (w : Z) :
  @derived Sample.online
    (Sample.session h (Some (Sample.chain h w)) w).
Proof.
  intros c Hc. simpl in Hc. injection Hc as <-.
  exists h, Sample.llama, w. repeat split.
  unfold rebuilt, Sample.chain. rewrite preload_new. reflexivity.
Qed.

(** A text with surrounding spaces is recorded with them. *)
Lemma X1_turn_records_text_as_submitted_witness :
  let q := py "  hi  " in
  let a := Sample.app (Sample.session [] (Some (Sample.chain [] 2)) 2) in
  strip q <> q
  /\ chat_history (session_state (snd (@handle_user_input Sample.online q a)))
     = Some [{| human := q; AI := py "re:   hi  " |}].
Proof.
  cbv zeta. split; [discriminate|].
  destruct (@X1_turn_records_text_as_submitted Sample.online (py "  hi  ")
              (Sample.app (Sample.session [] (Some (Sample.chain [] 2)) 2))
              (Sample.chain [] 2) [] (py "re:   hi  "))
    as (H1 & _); [reflexivity | reflexivity | reflexivity | reflexivity |].
  exact H1.
Defined.

(** Four submissions against an API whose second call fails. *)
Lemma X2_turns_keep_configuration_witness :
  let a := Sample.app (Sample.session [] (Some (Sample.chain [] 2)) 2) in
  let a' := snd (@run_turns Sample.flaky
                   [py "hello"; py "  "; py "how are you"; py "third"] a) in
  model (session_state a') = Some Sample.llama
  /\ memory_length (session_state a') = Some 2%Z
  /\ exists c', conversation (session_state a') = Some (Some c')
                /\ model_name (llm c') = Sample.llama
                /\ k (memory c') = 2%Z.
Proof.
  cbv zeta.
  destruct (@X2_turns_keep_configuration Sample.flaky
              [py "hello"; py "  "; py "how are you"; py "third"]
              (Sample.app (Sample.session [] (Some (Sample.chain [] 2)) 2)))
    as (Hm & Hw & Hc).
  split; [exact Hm|]. split; [exact Hw|].
  destruct (Hc (Sample.chain [] 2) eq_refl) as (c' & Hc' & Hl & Hk).
  exists c'. split; [exact Hc'|]. split.
  - rewrite Hl. reflexivity.
  - rewrite Hk. reflexivity.
Defined.

Lemma X3_turns_keep_session_derived_witness :
  let a := Sample.app (Sample.session Sample.ten_turns
                         (Some (Sample.chain Sample.ten_turns 3)) 3) in
  let s' := session_state
              (snd (@run_turns Sample.online [py "hello"; py "again"] a)) in
  @derived Sample.online s'
  /\ (forall c h w,
        conversation s' = Some (Some c) ->
        chat_history s' = Some h ->
        memory_length s' = Some w ->
        (0 < w)%Z ->
        context_window c = Some (most_recent (Z.to_nat w) h)).
Proof.
  cbv zeta.
  apply (@X3_turns_keep_session_derived Sample.online).
  apply sample_derived.
Defined.

Lemma X5_rebuild_after_turns_is_noop_witness :
  let E := Sample.flaky in
  let a := Sample.app (Sample.session Sample.ten_turns None 5) in
  let a1 := snd (handle_model_change a) in
  let a2 := snd (run_turns [py "hello"; py "how are you"; py "third"] a1) in
  handle_model_change a = (Ok tt, a1)
  /\ handle_model_change a2 = (Ok tt, a2).
Proof.
  cbv zeta. split; [reflexivity|].
  apply (@X5_rebuild_after_turns_is_noop Sample.flaky
           (Sample.app (Sample.session Sample.ten_turns None 5))).
  reflexivity.
Defined.

(** A reset without a credential on a session that has a chain. *)
Lemma X6_failed_reset_keeps_old_session_witness :
  let E := Sample.no_credential in
  let a := Sample.app (Sample.session [Sample.turn 0]
                         (Some (Sample.chain [Sample.turn 0] 2)) 2) in
  let a' := snd (reset_conversation a) in
  chat_history (session_state a') = Some []
  /\ conversation (session_state a')
     = Some (Some (Sample.chain [Sample.turn 0] 2))
  /\ ~ derived (session_state a').
Proof.
  cbv zeta.
  destruct (@X6_failed_reset_keeps_old_session Sample.no_credential
              (Sample.app (Sample.session [Sample.turn 0]
                             (Some (Sample.chain [Sample.turn 0] 2)) 2))
              (snd (@reset_conversation Sample.no_credential
                      (Sample.app (Sample.session [Sample.turn 0]
                                     (Some (Sample.chain [Sample.turn 0] 2))
                                     2))))
              (Exn CredentialMissing
                   (py "The api_key client option must be set")))
    as (H1 & H2 & _ & _ & _ & _ & H7); [reflexivity|].
  split; [exact H1|]. split; [exact H2|].
  apply (H7 (Sample.chain [Sample.turn 0] 2)); [reflexivity | discriminate].
Defined.

(** Selecting the second model when the client constructor rejects it. *)
Lemma X7_failed_model_change_keeps_old_session_witness :
  let E := Sample.picky in
  let w := {| selected_model := Sample.deepseek; slider_value := 5;
              submitted := None |} in
  let a := Sample.app (Sample.session Sample.ten_turns
                         (Some (Sample.chain Sample.ten_turns 5)) 5) in
  fst (sidebar w a) = Raise Sample.rejected
  /\ model (session_state (snd (sidebar w a))) = Some Sample.deepseek
  /\ conversation (session_state (snd (sidebar w a)))
     = Some (Some (Sample.chain Sample.ten_turns 5))
  /\ ~ derived (session_state (snd (sidebar w a))).
Proof.
  cbv zeta.
  destruct (@X7_failed_model_change_keeps_old_session Sample.picky
              {| selected_model := Sample.deepseek; slider_value := 5;
                 submitted := None |}
              (Sample.app (Sample.session Sample.ten_turns
                             (Some (Sample.chain Sample.ten_turns 5)) 5))
              Sample.ten_turns
              (Some (Some (Sample.chain Sample.ten_turns 5)))
              Sample.llama 5 0 Sample.rejected)
    as (H1 & H2);
    [reflexivity | reflexivity | discriminate | reflexivity |].
  rewrite H1. simpl. repeat split.
  rewrite H1 in H2.
  apply (H2 (Sample.chain Sample.ten_turns 5)); reflexivity.
Defined.

Lemma X8_unsupported_stored_model_stops_run_witness :
  let a := Sample.app {| chat_history := Some []; conversation := Some None;
                         model := Some (py "gpt-4");
                         memory_length := Some 5%Z |} in
  exists e,
    exn_kind e = ValueError
    /\ fst (@main Sample.online Sample.idle a) = Raise e
    /\ conversation (session_state (snd (@main Sample.online Sample.idle a)))
       = Some None.
Proof.
  cbv zeta.
  destruct (@X8_unsupported_stored_model_stops_run Sample.online Sample.idle
              (Sample.app {| chat_history := Some [];
                             conversation := Some None;
                             model := Some (py "gpt-4");
                             memory_length := Some 5%Z |})
              (py "gpt-4"))
    as (e & He & Hrun); [reflexivity | reflexivity |].
  exists e. split; [exact He|]. rewrite Hrun. split; reflexivity.
Defined.

(** A run that changes the window from 5 to 3 and submits a question. *)
Lemma X9_run_keeps_session_derived_witness :
  let E := Sample.online in
  let w := {| selected_model := Sample.llama; slider_value := 3;
              submitted := Some (py "hello") |} in
  let a := Sample.app (Sample.session Sample.ten_turns
                         (Some (Sample.chain Sample.ten_turns 5)) 5) in
  fst (main w a) = Ok tt
  /\ derived (session_state (snd (main w a))).
Proof.
  cbv zeta. split; [vm_compute; reflexivity|].
  destruct (@X9_run_keeps_session_derived Sample.online
              {| selected_model := Sample.llama; slider_value := 3;
                 submitted := Some (py "hello") |}
              (Sample.app (Sample.session Sample.ten_turns
                             (Some (Sample.chain Sample.ten_turns 5)) 5))
              (snd (@main Sample.online
                      {| selected_model := Sample.llama; slider_value := 3;
                         submitted := Some (py "hello") |}
                      (Sample.app (Sample.session Sample.ten_turns
                                     (Some (Sample.chain Sample.ten_turns 5))
                                     5)))))
    as (H1 & _).
  - apply sample_derived.
  - vm_compute. reflexivity.
  - exact H1.
Defined.

(** The first run of a new session. *)
Lemma X10_successful_run_ends_ready_witness :
  let E := Sample.online in
  let a := Sample.app empty_session in
  fst (main Sample.idle a) = Ok tt
  /\ exists h c m n,
      session_state (snd (main Sample.idle a))
      = {| chat_history := Some h; conversation := Some (Some c);
           model := Some m; memory_length := Some n |}.
Proof.
  cbv zeta. split; [reflexivity|].
  apply (@X10_successful_run_ends_ready Sample.online Sample.idle
           (Sample.app empty_session)).
  reflexivity.
Defined.

Lemma X11_run_invokes_chain_at_most_once_witness :
  let E := Sample.online in
  let w := {| selected_model := Sample.llama; slider_value := 5;
              submitted := Some [32; 9]%N |} in
  let a := Sample.app (Sample.session Sample.ten_turns
                         (Some (Sample.chain Sample.ten_turns 5)) 5) in
  network (snd (main w a)) = [].
Proof.
  cbv zeta.
  destruct (@X11_run_invokes_chain_at_most_once Sample.online
              {| selected_model := Sample.llama; slider_value := 5;
                 submitted := Some [32; 9]%N |}
              (Sample.app (Sample.session Sample.ten_turns
                             (Some (Sample.chain Sample.ten_turns 5)) 5)))
    as (_ & H).
  apply H. right. right. exists [32; 9]%N. split; reflexivity.
Defined.

Lemma X12_no_chat_input_without_credential_witness :
  let E := Sample.no_credential in
  let w := {| selected_model := Sample.llama; slider_value := 5;
              submitted := Some (py "hello") |} in
  let a := Sample.app (Sample.session Sample.ten_turns
                         (Some (Sample.chain Sample.ten_turns 5)) 5) in
  exists events,
    page (snd (main w a)) = events /\ ~ In ChatInput events.
Proof.
  cbv zeta.
  destruct (@X12_no_chat_input_without_credential Sample.no_credential
              {| selected_model := Sample.llama; slider_value := 5;
                 submitted := Some (py "hello") |}
              (Sample.app (Sample.session Sample.ten_turns
                             (Some (Sample.chain Sample.ten_turns 5)) 5)))
    as (events & Hp & Hn); [reflexivity|].
  exists events. split; [exact Hp | exact Hn].
Defined.

Lemma X13_idle_rerun_changes_nothing_witness :
  let E := Sample.online in
  let a := Sample.app (Sample.session Sample.ten_turns
                         (Some (Sample.chain Sample.ten_turns 5)) 5) in
  exists a',
    main Sample.idle a = (Ok tt, a')
    /\ session_state a' = session_state a
    /\ network a' = [].
Proof.
  cbv zeta.
  apply (@X13_idle_rerun_changes_nothing Sample.online Sample.idle
           (Sample.app (Sample.session Sample.ten_turns
                          (Some (Sample.chain Sample.ten_turns 5)) 5))
           Sample.ten_turns (Sample.chain Sample.ten_turns 5)
           Sample.llama 5 0); reflexivity.
Defined.
